(** * The sqlite driver of migrate: a shallow embedding of
      database/sqlite/sqlite.go and the properties of its lock, savepoint
      and version-bookkeeping operations.

    The driver talks to three collaborators that are not part of the
    repository: the SQL engine behind [database/sql], the file system
    behind [os], and the Go standard library's string helpers.  The
    first two are interfaces here (type classes [Engine] and
    [Runtime]); every general theorem is proved for all their
    instances.  Module [Toy] gives one small instance, used only to
    evaluate the driver on concrete inputs. *)

From Stdlib Require Import ZArith Lia Ascii String DecimalString.
From Stdlib Require DecimalZ DecimalPos.
From stdpp Require Import base tactics option list strings gmap.

Local Open Scope Z_scope.
Local Open Scope string_scope.

(** ** Go values that cross the driver's boundary *)

(** Arguments and result columns of a statement ([interface{}] in Go). *)
Inductive Value :=
| VInt (z : Z)
| VBool (b : bool)
| VText (t : string)
| VNull.

#[global] Instance Value_eq_dec : EqDecision Value.
Proof. solve_decision. Defined.

(** What [db.QueryRow(q).Scan(...)] can see of the engine's answer. *)
Inductive QueryResult (E : Type) :=
| QRow (cols : list Value)
| QNoRows
| QFail (e : E).
Arguments QRow {E} cols.
Arguments QNoRows {E}.
Arguments QFail {E} e.

(** The engine reached through [*sql.DB]: [DB] is the state of the
    engine, [Handle] what the driver stores in its [db] field. *)
Class Engine := {
  DB : Type;
  Handle : Type;
  EngErr : Type;
  sql_Open : DB -> string -> DB * (Handle + EngErr);
  db_Ping : Handle -> DB -> DB * option EngErr;
  db_Close : Handle -> DB -> DB * option EngErr;
  db_Exec : Handle -> DB -> string -> list Value -> DB * option EngErr;
  db_QueryRow : Handle -> DB -> string -> list Value -> DB * QueryResult EngErr
}.

(** A parsed locator, as [url.Parse] returns it: the path and the query
    parameters, each key with its first value and the others ([url.ParseQuery]
    stores no empty slice). *)
Record URL := mkURL {
  Path : string;
  Query : gmap string (string * list string)
}.

(** An [io.Reader] as [ioutil.ReadAll] sees it: all bytes, or the bytes
    read before a fault. *)
Inductive Reader (R : Type) :=
| ReadsAll (buf : string)
| ReadFails (buf : string) (e : R).
Arguments ReadsAll {R} buf.
Arguments ReadFails {R} buf e.

(** The rest of the Go runtime the driver uses: [os.Remove] over a file
    system [FS], the fault of a reader, and [url.Parse]. *)
Class Runtime := {
  FS : Type;
  OsErr : Type;
  IoErr : Type;
  UrlErr : Type;
  os_Remove : FS -> string -> FS * option OsErr;
  url_Parse : string -> URL + UrlErr
}.

(** ** Strings *)

Definition dquote : string := String (ascii_of_nat 34) "".
Definition newline : string := String (ascii_of_nat 10) "".
Definition tab : string := String (ascii_of_nat 9) "".

(** [strings.Replace(s, old, new, -1)] for a non-empty [old]: the
    occurrences of [old] are found from the left and do not overlap.
    [skip] counts the bytes of a matched [old] still to be dropped.  (With
    an empty [old] Go inserts [new] at every rune boundary; that case is
    not modelled, the driver's [old] is a constant.) *)
Fixpoint replace_from (old new : string) (skip : nat) (s : string) : string :=
  match s with
  | "" => ""
  | String c s' =>
      match skip with
      | S k => replace_from old new k s'
      | O =>
          if String.prefix old s
          then new +:+ replace_from old new (String.length old - 1) s'
          else String c (replace_from old new 0 s')
      end
  end.

Definition strings_Replace (s old new : string) : string :=
  replace_from old new 0 s.

(** [strings.Contains(s, substr)] *)
Fixpoint strings_Contains (s substr : string) : bool :=
  match s with
  | "" => String.prefix substr ""
  | String _ s' => String.prefix substr s || strings_Contains s' substr
  end.

(** No byte of [s] is [$]: such a text holds no placeholder. *)
Fixpoint dollar_free (s : string) : bool :=
  match s with
  | "" => true
  | String c s' => negb (Ascii.eqb c "$") && dollar_free s'
  end.

(** [fmt.Sprintf("%d", n)] *)
Definition fmt_d (n : Z) : string := NilZero.string_of_int (Z.to_int n).

(** Two's complement wrap-around of an [int64]. *)
Definition wrap64 (z : Z) : Z := (z + 2 ^ 63) mod 2 ^ 64 - 2 ^ 63.

Section Driver.
Context {engine : Engine} {runtime : Runtime}.

(** Go's [error] values that the driver returns. *)
Inductive error :=
| ErrLocked                                  (* database.ErrLocked *)
| ErrNoRows                                  (* sql.ErrNoRows *)
| EngineError (e : EngErr)
| ScanError (col : nat)                      (* conversion of column col *)
| ScanArityError (cols : nat)                (* cols columns, other count of destinations *)
| PathError (e : OsErr)
| ReadError (e : IoErr)
| ParseError (e : UrlErr)
| DatabaseError (OrigErr : error) (Query : string). (* &database.Error{...} *)

(** database.NilVersion *)
Definition NilVersion : Z := -1.

Definition DefaultMigrationsTable : string := "schema_migrations".

(** type Sqlite struct *)
Record Sqlite := mkSqlite {
  db : Handle;
  dbPath : string;
  migrationsTable : string;
  locked : bool;
  txid : Z
}.

(** One call that left the driver, in the order of issue. *)
Inductive Call :=
| CExec (op : string) (arg : list Value)
| CQueryRow (query : string) (arg : list Value)
| CPing
| CClose
| CRemove (path : string).

(** Everything outside the struct: the engine, the file system, and the
    trace of the calls made so far (a ghost field: the code keeps no such
    trace, it is what an observer of the engine would have seen). *)
Record World := mkWorld {
  w_db : DB;
  w_fs : FS;
  w_log : list Call
}.

(** ** The monad of a method with a pointer receiver *)

Definition M (A : Type) : Type := Sqlite -> World -> A * Sqlite * World.

Definition ret {A} (a : A) : M A := fun s w => (a, s, w).

Definition bind {A B} (m : M A) (k : A -> M B) : M B :=
  fun s w => let '(a, s1, w1) := m s w in k a s1 w1.

Definition this : M Sqlite := fun s w => (s, s, w).

Definition assign (f : Sqlite -> Sqlite) : M unit := fun s w => (tt, f s, w).

Declare Scope go_scope.
Delimit Scope go_scope with go.
Notation "x <- m ;; k" := (bind m (fun x => k))
  (at level 100, m at next level, right associativity) : go_scope.
Notation "m ;;; k" := (bind m (fun _ => k))
  (at level 100, right associativity) : go_scope.
Local Open Scope go_scope.

(** The calls that leave the driver: each steps the collaborator and
    appends itself to the trace. *)
Definition call_Exec (h : Handle) (op : string) (arg : list Value)
  : M (option EngErr) :=
  fun s w =>
    let '(d, r) := db_Exec h (w_db w) op arg in
    (r, s, mkWorld d (w_fs w) (w_log w ++ [CExec op arg])).

Definition call_QueryRow (h : Handle) (query : string) (arg : list Value)
  : M (QueryResult EngErr) :=
  fun s w =>
    let '(d, r) := db_QueryRow h (w_db w) query arg in
    (r, s, mkWorld d (w_fs w) (w_log w ++ [CQueryRow query arg])).

Definition call_Close (h : Handle) : M (option EngErr) :=
  fun s w =>
    let '(d, r) := db_Close h (w_db w) in
    (r, s, mkWorld d (w_fs w) (w_log w ++ [CClose])).

Definition call_Remove (path : string) : M (option OsErr) :=
  fun s w =>
    let '(f, r) := os_Remove (w_fs w) path in
    (r, s, mkWorld (w_db w) f (w_log w ++ [CRemove path])).

(** [atomic.AddInt64(&s.txid, delta)]: stores and returns the new value. *)
Definition atomic_AddInt64_txid (delta : Z) : M Z :=
  fun s w =>
    let n := wrap64 (txid s + delta) in
    (n, mkSqlite (db s) (dbPath s) (migrationsTable s) (locked s) n, w).

Definition set_locked (b : bool) (s : Sqlite) : Sqlite :=
  mkSqlite (db s) (dbPath s) (migrationsTable s) b (txid s).

(** [Scan] into an [int] and into a [bool] destination.  An integer column
    scans into an [int]; a boolean column, or the integers 0 and 1, into
    a [bool]; every other conversion is reported as an error here. *)
Definition scan_int (v : Value) : option Z :=
  match v with
  | VInt z => Some z
  | _ => None
  end.

Definition scan_bool (v : Value) : option bool :=
  match v with
  | VBool b => Some b
  | VInt 0 => Some false
  | VInt 1 => Some true
  | _ => None
  end.

(** ** The driver, function by function *)

Definition placeholder : string := "${MIGRATIONS_TABLE}".

(** func getOptionWithDefault(u *url.URL, opt, dflt string) string *)
Definition getOptionWithDefault (u : URL) (opt dflt : string) : string :=
  match Query u !! opt with
  | None => dflt
  | Some (v0, _) => v0
  end.

(** func dberror(err error, query string) error *)
Definition dberror (err : error) (query : string) : error :=
  DatabaseError err query.

(** func (s *Sqlite) exec(op string, arg ...interface{}) error *)
Definition exec (op : string) (arg : list Value) : M (option error) :=
  s <- this ;;
  let op := strings_Replace op placeholder (migrationsTable s) in
  err <- call_Exec (db s) op arg ;;
  match err with
  | Some e => ret (Some (DatabaseError (EngineError e) op))
  | None => ret None
  end.

(** func (s *Sqlite) ensureVersionTable() error *)
Definition ensureVersionTable : M (option error) :=
  let query :=
    "SELECT COUNT(1) FROM sqlite_master WHERE type = 'table' AND name = $1" in
  s <- this ;;
  r <- call_QueryRow (db s) query [VText (migrationsTable s)] ;;
  let scanned :=
    match r with
    | QFail e => inr (EngineError e)
    | QNoRows => inr ErrNoRows
    | QRow [c] =>
        match scan_int c with
        | Some count => inl count
        | None => inr (ScanError 0)
        end
    | QRow cols => inr (ScanArityError (length cols))
    end in
  match scanned with
  | inr err => ret (Some (dberror err query))
  | inl count =>
      if (count =? 1)%Z then ret None
      else
        let query :=
          "CREATE TABLE ${MIGRATIONS_TABLE} (version bigint not null primary key, dirty boolean not null)" in
        err <- exec query [] ;;
        match err with
        | Some e => ret (Some e)
        | None => ret None
        end
  end.

(** func (s *Sqlite) Open(uri string) (database.Driver, error).  The
    receiver is replaced by a fresh struct, so the result depends on the
    world only. *)
Definition Open (uri : string) (w : World) : (Sqlite + error) * World :=
  match url_Parse uri with
  | inr e => (inr (ParseError e), w)
  | inl u =>
      let migTbl :=
        getOptionWithDefault u "x-migrations-table" DefaultMigrationsTable in
      let '(d, r) := sql_Open (w_db w) (Path u) in
      let w1 := mkWorld d (w_fs w) (w_log w) in
      match r with
      | inr e => (inr (EngineError e), w1)
      | inl h =>
          let s := mkSqlite h (Path u) migTbl false 0 in
          let '(d2, p) := db_Ping h (w_db w1) in
          let w2 := mkWorld d2 (w_fs w1) (w_log w1 ++ [CPing]) in
          match p with
          | Some e => (inr (EngineError e), w2)
          | None =>
              let '(err, s3, w3) := ensureVersionTable s w2 in
              match err with
              | Some e => (inr e, w3)
              | None => (inl s3, w3)
              end
          end
      end
  end.

(** func (s *Sqlite) Close() error *)
Definition Close : M (option error) :=
  s <- this ;;
  r <- call_Close (db s) ;;
  ret (option_map EngineError r).

(** func (s *Sqlite) Lock() error *)
Definition Lock : M (option error) :=
  s <- this ;;
  if locked s then ret (Some ErrLocked)
  else
    assign (set_locked true) ;;;
    err <- exec "PRAGMA locking_mode = EXCLUSIVE" [] ;;
    match err with
    | Some e => ret (Some e)
    | None =>
        err <- exec "BEGIN EXCLUSIVE" [] ;;
        match err with
        | Some e => ret (Some e)
        | None => ret None
        end
    end.

(** func (s *Sqlite) Unlock() error *)
Definition Unlock : M (option error) :=
  s <- this ;;
  if negb (locked s) then ret None
  else
    err <- exec "COMMIT" [] ;;
    match err with
    | Some e => ret (Some e)
    | None => ret None
    end.

(** func (s *Sqlite) Run(migration io.Reader) error *)
Definition Run (migration : Reader IoErr) : M (option error) :=
  match migration with
  | ReadFails _ e => ret (Some (ReadError e))
  | ReadsAll buf => exec buf []
  end.

(** func (s *Sqlite) transactionally(thunk func() error) error.  The
    body runs to one of its three returns with the value of [success]
    at that point; the deferred function runs next, and the body's
    error is the result. *)
Definition transactionally (thunk : M (option error)) : M (option error) :=
  n <- atomic_AddInt64_txid 1 ;;
  let txname := "txn_" +:+ fmt_d n in
  body <-
    (err <- exec ("SAVEPOINT " +:+ txname) [] ;;
     match err with
     | Some e => ret (Some e, false)
     | None =>
         err <- thunk ;;
         match err with
         | Some e => ret (Some e, false)
         | None =>
             exec ("RELEASE " +:+ txname) [] ;;;
             ret (None, true)
         end
     end) ;;
  let '(result, success) := body in
  (if negb success
   then exec ("ROLLBACK TO " +:+ txname) [] ;;; ret tt
   else ret tt) ;;;
  ret result.

Definition insert_statement : string :=
  "INSERT INTO ${MIGRATIONS_TABLE} (version, dirty) " +:+ newline
  +:+ tab +:+ tab +:+ tab +:+ "               VALUES ($1, $2)".

(** func (s *Sqlite) SetVersion(version int, dirty bool) error *)
Definition SetVersion (version : Z) (dirty : bool) : M (option error) :=
  transactionally
    (err <- exec "DELETE FROM ${MIGRATIONS_TABLE}" [] ;;
     match err with
     | Some e => ret (Some e)
     | None =>
         if (version >=? 0)%Z
         then exec insert_statement [VInt version; VBool dirty]
         else ret None
     end).

(** func (s *Sqlite) Version() (int, bool, error) *)
Definition Version : M (Z * bool * option error) :=
  s <- this ;;
  let query :=
    "SELECT version, dirty FROM " +:+ dquote +:+ migrationsTable s
    +:+ dquote +:+ " LIMIT 1" in
  r <- call_QueryRow (db s) query [] ;;
  let scanned :=
    match r with
    | QFail e => inr (EngineError e)
    | QNoRows => inr ErrNoRows
    | QRow [c0; c1] =>
        match scan_int c0 with
        | None => inr (ScanError 0)
        | Some version =>
            match scan_bool c1 with
            | None => inr (ScanError 1)
            | Some dirty => inl (version, dirty)
            end
        end
    | QRow cols => inr (ScanArityError (length cols))
    end in
  match scanned with
  | inr ErrNoRows => ret (NilVersion, false, None)
  | inr err => ret (0, false, Some (DatabaseError err query))
  | inl (version, dirty) => ret (version, dirty, None)
  end.

(** func (s *Sqlite) Drop() error *)
Definition Drop : M (option error) :=
  s <- this ;;
  r <- call_Remove (dbPath s) ;;
  ret (option_map PathError r).

(** ** Vocabulary for the statements of the properties *)

(** The struct after [atomic.AddInt64(&s.txid, 1)], and the savepoint
    name [transactionally] derives from the new counter. *)
Definition bump (s : Sqlite) : Sqlite :=
  mkSqlite (db s) (dbPath s) (migrationsTable s) (locked s)
    (wrap64 (txid s + 1)).

Definition txname_of (s : Sqlite) : string :=
  "txn_" +:+ fmt_d (wrap64 (txid s + 1)).

(** What one [exec] of [op] does in the world [w] for the struct [s]:
    the text handed to the engine, the error returned, the world after. *)
Definition exec_text (s : Sqlite) (op : string) : string :=
  strings_Replace op placeholder (migrationsTable s).

Definition exec_error (s : Sqlite) (w : World) (op : string)
    (arg : list Value) : option error :=
  option_map (fun e => DatabaseError (EngineError e) (exec_text s op))
    (snd (db_Exec (db s) (w_db w) (exec_text s op) arg)).

Definition exec_world (s : Sqlite) (w : World) (op : string)
    (arg : list Value) : World :=
  mkWorld (fst (db_Exec (db s) (w_db w) (exec_text s op) arg)) (w_fs w)
    (w_log w ++ [CExec (exec_text s op) arg]).

(** The text of the bookkeeping statements once the table name [tbl] is
    in place. *)
Definition delete_text (tbl : string) : string := "DELETE FROM " +:+ tbl.

Definition insert_text (tbl : string) : string :=
  "INSERT INTO " +:+ tbl +:+ " (version, dirty) " +:+ newline
  +:+ tab +:+ tab +:+ tab +:+ "               VALUES ($1, $2)".

Definition select_text (tbl : string) : string :=
  "SELECT version, dirty FROM " +:+ dquote +:+ tbl +:+ dquote +:+ " LIMIT 1".

(** What the driver needs of an SQL engine for its bookkeeping table
    [tbl], reached through handle [h], inside savepoint [sp].  [rows d]
    is the content of the table in engine state [d], [None] when the
    table cannot be read. *)
Record BookkeepingEngine (h : Handle) (tbl sp : string)
    (rows : DB -> option (list (list Value))) : Prop := {
  law_savepoint : forall d,
    rows (fst (db_Exec h d ("SAVEPOINT " +:+ sp) [])) = rows d;
  law_release : forall d,
    rows (fst (db_Exec h d ("RELEASE " +:+ sp) [])) = rows d;
  law_delete : forall d d',
    db_Exec h d (delete_text tbl) [] = (d', None) -> rows d' = Some [];
  law_insert : forall d d' v b l,
    db_Exec h d (insert_text tbl) [v; b] = (d', None) ->
    rows d = Some l -> rows d' = Some (l ++ [[v; b]])%list;
  law_select : forall d,
    match rows d with
    | Some [] => snd (db_QueryRow h d (select_text tbl) []) = QNoRows
    | Some (r :: _) => snd (db_QueryRow h d (select_text tbl) []) = QRow r
    | None => True
    end
}.

(** The catalog query and the bootstrap statement of
    [ensureVersionTable], the latter with the table name in place. *)
Definition catalog_query : string :=
  "SELECT COUNT(1) FROM sqlite_master WHERE type = 'table' AND name = $1".

Definition create_text (tbl : string) : string :=
  "CREATE TABLE " +:+ tbl
  +:+ " (version bigint not null primary key, dirty boolean not null)".

(** The count [ensureVersionTable] reads off the catalog's answer. *)
Definition catalog_count (r : QueryResult EngErr) : Z + error :=
  match r with
  | QFail e => inr (EngineError e)
  | QNoRows => inr ErrNoRows
  | QRow [c] =>
      match scan_int c with
      | Some count => inl count
      | None => inr (ScanError 0)
      end
  | QRow cols => inr (ScanArityError (length cols))
  end.

(** What [ensureVersionTable] needs of the engine's catalog: [present d]
    says that the catalog of [d] lists a table named [tbl]. *)
Record CatalogEngine (h : Handle) (tbl : string) (present : DB -> bool)
  : Prop := {
  law_catalog : forall d,
    snd (db_QueryRow h d catalog_query [VText tbl]) = QRow [VInt 1]
    <-> present d = true;
  law_catalog_pure : forall d,
    present (fst (db_QueryRow h d catalog_query [VText tbl])) = present d;
  law_create : forall d d',
    db_Exec h d (create_text tbl) [] = (d', None) -> present d' = true
}.

(** What [transactionally] needs of the engine's savepoints around the
    bookkeeping statements: [saved d] is the content the table had when
    savepoint [sp] was created, [None] when [d] holds no such savepoint.
    The bookkeeping statements leave it alone, accepted or refused, and
    rolling back to [sp] brings that content back. *)
Record SavepointEngine (h : Handle) (tbl sp : string)
    (rows : DB -> option (list (list Value)))
    (saved : DB -> option (option (list (list Value)))) : Prop := {
  law_sp_create : forall d d',
    db_Exec h d ("SAVEPOINT " +:+ sp) [] = (d', None) ->
    saved d' = Some (rows d);
  law_sp_delete : forall d,
    saved (fst (db_Exec h d (delete_text tbl) [])) = saved d;
  law_sp_insert : forall d v b,
    saved (fst (db_Exec h d (insert_text tbl) [v; b])) = saved d;
  law_sp_rollback : forall d x,
    saved d = Some x ->
    rows (fst (db_Exec h d ("ROLLBACK TO " +:+ sp) [])) = x
}.

End Driver.

(** ** A small engine, to run the driver on concrete inputs

    One connection to one database file.  A script is cut into tokens
    and into statements at [;]; the statements run in order and the
    first one that fails stops the script, what ran before it stays
    done.  Only the statements the driver issues and [CREATE TABLE] are
    understood; everything else is a syntax error.  The general theorems
    below do not depend on this engine. *)
Module Toy.

Abbreviation Rows := (list (list Value)).

(** The tables by name, in order of creation. *)
Abbreviation Tables := (list (string * Rows)).

Fixpoint table (t : string) (ts : Tables) : option Rows :=
  match ts with
  | [] => None
  | (n, rows) :: rest => if String.eqb n t then Some rows else table t rest
  end.

Fixpoint put_table (t : string) (rows : Rows) (ts : Tables) : Tables :=
  match ts with
  | [] => [(t, rows)]
  | (n, old) :: rest =>
      if String.eqb n t then (n, rows) :: rest
      else (n, old) :: put_table t rows rest
  end.

Record State := mkState {
  tables : Tables;
  savepoints : list (string * Tables);  (* innermost first *)
  in_txn : bool;
  busy : bool;      (* another connection holds the lock on the file *)
  closed : bool
}.

Inductive Err :=
| SyntaxError (near : list string)
| NoSuchTable (t : string)
| TableExists (t : string)
| NoSuchSavepoint (n : string)
| TransactionWithinTransaction
| NoTransactionActive
| DatabaseIsLocked
| DatabaseIsClosed
| UniqueConstraint
| NoSuchFile.

Definition is_space (c : ascii) : bool :=
  Ascii.eqb c " " || Ascii.eqb c (ascii_of_nat 9)
  || Ascii.eqb c (ascii_of_nat 10) || Ascii.eqb c (ascii_of_nat 13).

Definition is_punct (c : ascii) : bool :=
  Ascii.eqb c "(" || Ascii.eqb c ")" || Ascii.eqb c "," || Ascii.eqb c ";".

Definition flush (cur : string) (k : list string) : list string :=
  match cur with
  | "" => k
  | _ => cur :: k
  end.

(** Tokens: words, the four punctuation marks, and identifiers between
    double quotes (kept without the quotes). *)
Fixpoint lex (inq : bool) (cur : string) (s : string) : list string :=
  match s with
  | "" => flush cur []
  | String c s' =>
      if inq then
        if Ascii.eqb c (ascii_of_nat 34) then cur :: lex false "" s'
        else lex true (cur +:+ String c "") s'
      else if Ascii.eqb c (ascii_of_nat 34) then flush cur (lex true "" s')
      else if is_space c then flush cur (lex false "" s')
      else if is_punct c then flush cur (String c "" :: lex false "" s')
      else lex false (cur +:+ String c "") s'
  end.

Fixpoint statements (cur : list string) (toks : list string)
  : list (list string) :=
  match toks with
  | [] => match cur with [] => [] | _ => [cur] end
  | t :: r =>
      if String.eqb t ";"
      then match cur with [] => statements [] r | _ => cur :: statements [] r end
      else statements (cur ++ [t]) r
  end.

Definition parse (script : string) : list (list string) :=
  statements [] (lex false "" script).

Definition with_tables (d : State) (t : Tables) : State :=
  mkState t (savepoints d) (in_txn d) (busy d) (closed d).

Definition with_savepoints (d : State) (t : Tables)
    (sp : list (string * Tables)) : State :=
  mkState t sp (in_txn d) (busy d) (closed d).

(** The savepoints from the innermost one named [n] outwards. *)
Fixpoint from_savepoint (n : string) (sp : list (string * Tables))
  : option (list (string * Tables)) :=
  match sp with
  | [] => None
  | (m, t) :: r => if String.eqb m n then Some sp else from_savepoint n r
  end.

Definition same_key (v : Value) (row : list Value) : bool :=
  match row with
  | k :: _ => bool_decide (k = v)
  | [] => false
  end.

Definition is_kw (toks pat : list string) : bool :=
  bool_decide (toks = pat).

Definition insert_tail : list string :=
  ["("; "version"; ","; "dirty"; ")"; "VALUES"; "("; "$1"; ","; "$2"; ")"].

Inductive Stmt :=
| SPragma
| SBegin
| SCommit
| SSavepoint (n : string)
| SRelease (n : string)
| SRollbackTo (n : string)
| SDelete (t : string)
| SInsert (t : string)
| SCreate (t : string)
| SBad.

Definition classify (stmt : list string) : Stmt :=
  if is_kw stmt ["PRAGMA"; "locking_mode"; "="; "EXCLUSIVE"] then SPragma
  else if is_kw stmt ["BEGIN"; "EXCLUSIVE"] then SBegin
  else if is_kw stmt ["COMMIT"] then SCommit
  else
    match stmt with
    | [k; n] =>
        if String.eqb k "SAVEPOINT" then SSavepoint n
        else if String.eqb k "RELEASE" then SRelease n
        else SBad
    | [k1; k2; n] =>
        if String.eqb k1 "ROLLBACK" && String.eqb k2 "TO" then SRollbackTo n
        else if String.eqb k1 "DELETE" && String.eqb k2 "FROM" then SDelete n
        else SBad
    | k1 :: k2 :: t :: tail =>
        if String.eqb k1 "INSERT" && String.eqb k2 "INTO"
           && is_kw tail insert_tail
        then SInsert t
        else if String.eqb k1 "CREATE" && String.eqb k2 "TABLE"
                && is_kw (take 1 tail) ["("]
        then SCreate t
        else SBad
    | _ => SBad
    end.

Definition step (d : State) (stmt : list string) (arg : list Value)
  : State * option Err :=
  match classify stmt with
  | SPragma => (d, None)
  | SBegin =>
      if in_txn d then (d, Some TransactionWithinTransaction)
      else if busy d then (d, Some DatabaseIsLocked)
      else (mkState (tables d) (savepoints d) true (busy d) (closed d), None)
  | SCommit =>
      if in_txn d
      then (mkState (tables d) [] false (busy d) (closed d), None)
      else (d, Some NoTransactionActive)
  | SSavepoint n =>
      (with_savepoints d (tables d) ((n, tables d) :: savepoints d), None)
  | SRelease n =>
      match from_savepoint n (savepoints d) with
      | Some (_ :: outer) => (with_savepoints d (tables d) outer, None)
      | _ => (d, Some (NoSuchSavepoint n))
      end
  | SRollbackTo n =>
      match from_savepoint n (savepoints d) with
      | Some ((m, t) :: outer) => (with_savepoints d t ((m, t) :: outer), None)
      | _ => (d, Some (NoSuchSavepoint n))
      end
  | SDelete t =>
      match table t (tables d) with
      | Some _ => (with_tables d (put_table t [] (tables d)), None)
      | None => (d, Some (NoSuchTable t))
      end
  | SInsert t =>
      match table t (tables d), arg with
      | Some rows, [v; b] =>
          if existsb (same_key v) rows then (d, Some UniqueConstraint)
          else (with_tables d (put_table t (rows ++ [[v; b]])%list (tables d)), None)
      | Some _, _ => (d, Some (SyntaxError stmt))
      | None, _ => (d, Some (NoSuchTable t))
      end
  | SCreate t =>
      match table t (tables d) with
      | Some _ => (d, Some (TableExists t))
      | None => (with_tables d (put_table t [] (tables d)), None)
      end
  | SBad => (d, Some (SyntaxError stmt))
  end.

Fixpoint run (d : State) (stmts : list (list string)) (arg : list Value)
  : State * option Err :=
  match stmts with
  | [] => (d, None)
  | stmt :: rest =>
      match step d stmt arg with
      | (d', None) => run d' rest arg
      | (d', Some e) => (d', Some e)
      end
  end.

Definition Exec (_ : unit) (d : State) (op : string) (arg : list Value)
  : State * option Err :=
  if closed d then (d, Some DatabaseIsClosed) else run d (parse op) arg.

Definition count_tail : list string :=
  ["FROM"; "sqlite_master"; "WHERE"; "type"; "="; "'table'"; "AND"; "name";
   "="; "$1"].

Inductive Query :=
| QVersion (t : string)
| QCount
| QBad (near : list string).

Definition classify_query (stmts : list (list string)) : Query :=
  match stmts with
  | [[k1; k2; k3; k4; k5; t; k6; k7]] =>
      if is_kw [k1; k2; k3; k4; k5; k6; k7]
           ["SELECT"; "version"; ","; "dirty"; "FROM"; "LIMIT"; "1"]
      then QVersion t
      else QBad [k1; k2; k3; k4; k5; t; k6; k7]
  | [stmt] =>
      if is_kw stmt (["SELECT"; "COUNT"; "("; "1"; ")"] ++ count_tail)
      then QCount
      else QBad stmt
  | stmt :: _ => QBad stmt
  | [] => QBad []
  end.

Definition QueryRow (_ : unit) (d : State) (query : string) (arg : list Value)
  : State * QueryResult Err :=
  if closed d then (d, QFail DatabaseIsClosed)
  else
    match classify_query (parse query) with
    | QVersion t =>
        match table t (tables d) with
        | Some [] => (d, QNoRows)
        | Some (row :: _) => (d, QRow row)
        | None => (d, QFail (NoSuchTable t))
        end
    | QCount =>
        match arg with
        | [VText t] =>
            match table t (tables d) with
            | Some _ => (d, QRow [VInt 1])
            | None => (d, QRow [VInt 0])
            end
        | _ => (d, QFail (SyntaxError []))
        end
    | QBad near => (d, QFail (SyntaxError near))
    end.

#[export] Instance engine : Engine := {|
  DB := State;
  Handle := unit;
  EngErr := Err;
  sql_Open := fun d _ => (d, inl tt);
  db_Ping := fun _ d => (d, if closed d then Some DatabaseIsClosed else None);
  db_Close := fun _ d =>
    (mkState (tables d) (savepoints d) (in_txn d) (busy d) true,
     if closed d then Some DatabaseIsClosed else None);
  db_Exec := Exec;
  db_QueryRow := QueryRow
|}.

(** The files that exist; a locator is its path, without options. *)
#[export] Instance runtime : Runtime := {|
  FS := list string;
  OsErr := Err;
  IoErr := Err;
  UrlErr := Err;
  os_Remove := fun fs p =>
    if existsb (String.eqb p) fs
    then (filter (fun f => negb (String.eqb p f)) fs, None)
    else (fs, Some NoSuchFile);
  url_Parse := fun uri => inl (mkURL uri ∅)
|}.

(** An empty database file [/tmp/m.db], nobody else connected. *)
Definition fresh_db : State := mkState [] [] false false false.

Definition fresh_world : World := mkWorld fresh_db ["/tmp/m.db"] [].

(** The driver that [Open "/tmp/m.db"] returns there, and the world it
    leaves: the bookkeeping table exists and is empty. *)
Definition drv : Sqlite := mkSqlite tt "/tmp/m.db" "schema_migrations" false 0.

Definition bootstrapped_db : State :=
  mkState [("schema_migrations", [])] [] false false false.

Definition world0 : World :=
  mkWorld bootstrapped_db ["/tmp/m.db"]
    [CPing;
     CQueryRow
       "SELECT COUNT(1) FROM sqlite_master WHERE type = 'table' AND name = $1"
       [VText "schema_migrations"];
     CExec
       "CREATE TABLE schema_migrations (version bigint not null primary key, dirty boolean not null)"
       []].

(** The same database while another connection holds its lock. *)
Definition contended_world : World :=
  mkWorld (mkState [("schema_migrations", [])] [] false true false)
    ["/tmp/m.db"] (w_log world0).

(** The content of table [tbl], [None] when it cannot be read. *)
Definition rows_of (tbl : string) (d : State) : option Rows :=
  if closed d then None else table tbl (tables d).

(** Two actions that release the savepoint of the first
    [transactionally] themselves, so that the driver's own [RELEASE] or
    [ROLLBACK TO] is refused: one then fails, one succeeds. *)
Definition release_then_fail : M (option error) :=
  bind (exec "RELEASE txn_1" []) (fun _ => exec "BOGUS" []).

Definition release_only : M (option error) := exec "RELEASE txn_1" [].

(** A world whose bookkeeping table holds the row (5, false), and an
    action that deletes the row and then fails. *)
Definition versioned_world : World :=
  mkWorld (mkState [("schema_migrations", [[VInt 5; VBool false]])] []
             false false false)
    ["/tmp/m.db"] [].

Definition delete_then_fail : M (option error) :=
  bind (exec "DELETE FROM ${MIGRATIONS_TABLE}" []) (fun _ => exec "BOGUS" []).

(** A migration whose first statement is valid and whose second is not,
    and one that mentions the placeholder. *)
Definition half_valid_script : string := "CREATE TABLE t (x int); BOGUS".

Definition placeholder_script : string :=
  "CREATE TABLE ${MIGRATIONS_TABLE}_audit (x int)".

(** Whether the catalog lists table [tbl], and the content [tbl] had
    when the innermost savepoint [sp] was created. *)
Definition present_of (tbl : string) (d : State) : bool :=
  negb (closed d)
  && match table tbl (tables d) with Some _ => true | None => false end.

Definition saved_of (tbl sp : string) (d : State) : option (option Rows) :=
  if closed d then None
  else
    match from_savepoint sp (savepoints d) with
    | Some ((_, t) :: _) => Some (table tbl t)
    | _ => None
    end.

(** The freshly opened database after [Close]. *)
Definition closed_world : World :=
  mkWorld (mkState [("schema_migrations", [])] [] false false true)
    ["/tmp/m.db"] (w_log world0).

End Toy.

(** ** The small engine with one injected fault

    The same engine, except that while the flag is up the next [INSERT]
    is refused with [DiskFull] and changes nothing; the flag is then
    lowered.  Every other statement goes to [Toy]. *)
Module Faulty.

Inductive Err :=
| DiskFull
| Inner (e : Toy.Err).

Definition is_insert (op : string) : bool := String.prefix "INSERT" op.

Definition Exec (h : unit) (d : Toy.State * bool) (op : string)
    (arg : list Value) : Toy.State * bool * option Err :=
  if is_insert op && snd d then ((fst d, false), Some DiskFull)
  else
    let '(d', r) := Toy.Exec h (fst d) op arg in
    ((d', snd d), option_map Inner r).

Definition QueryRow (h : unit) (d : Toy.State * bool) (query : string)
    (arg : list Value) : Toy.State * bool * QueryResult Err :=
  let '(d', r) := Toy.QueryRow h (fst d) query arg in
  ((d', snd d),
   match r with
   | QRow cols => QRow cols
   | QNoRows => QNoRows
   | QFail e => QFail (Inner e)
   end).

#[export] Instance engine : Engine := {|
  DB := Toy.State * bool;
  Handle := unit;
  EngErr := Err;
  sql_Open := fun d _ => (d, inl tt);
  db_Ping := fun _ d => (d, None);
  db_Close := fun _ d => (d, None);
  db_Exec := Exec;
  db_QueryRow := QueryRow
|}.

Definition drv : Sqlite := mkSqlite tt "/tmp/m.db" "schema_migrations" false 0.

(** The bookkeeping table holds the row (5, false) and the next insert
    will be refused. *)
Definition faulty_world : @World engine Toy.runtime :=
  @mkWorld engine Toy.runtime
    (Toy.mkState [("schema_migrations", [[VInt 5; VBool false]])] []
       false false false,
     true)
    ["/tmp/m.db"] [].

End Faulty.

(** Closes a case of [Version] that returns an error. *)
Ltac version_error :=
  cbn; split; [reflexivity|split; [reflexivity|]];
  intros ? ? ? [= <- <- <-];
  split; [reflexivity|split; [reflexivity|]];
  eexists; split; [reflexivity|discriminate].

(** * Properties *)

(** ** The placeholder substitution *)

Lemma prefix_cons (a b : ascii) (s1 s2 : string) :
  String.prefix (String a s1) (String b s2)
  = if ascii_dec a b then String.prefix s1 s2 else false.
Proof. reflexivity. Qed.

Lemma prefix_placeholder_cons (c : ascii) (s : string) :
  c <> "$"%char -> String.prefix placeholder (String c s) = false.
Proof.
  intros Hc. unfold placeholder. rewrite prefix_cons.
  destruct (ascii_dec "$" c) as [E|E]; [congruence|reflexivity].
Qed.

Lemma dollar_free_app (a b : string) :
  dollar_free (a +:+ b) = dollar_free a && dollar_free b.
Proof.
  induction a as [|c a IH]; simpl; [reflexivity|].
  rewrite IH. apply andb_assoc.
Qed.

Lemma dollar_free_uint (d : Decimal.uint) :
  dollar_free (NilZero.string_of_uint d) = true.
Proof.
  assert (H : dollar_free (NilEmpty.string_of_uint d) = true)
    by (induction d; cbn; auto).
  destruct d; cbn in *; auto.
Qed.

Lemma dollar_free_fmt_d (n : Z) : dollar_free (fmt_d n) = true.
Proof.
  unfold fmt_d, NilZero.string_of_int.
  destruct (Z.to_int n); cbn; apply dollar_free_uint.
Qed.

Lemma replace_dollar_free (s new : string) :
  dollar_free s = true -> strings_Replace s placeholder new = s.
Proof.
  unfold strings_Replace. induction s as [|c s IH]; cbn -[String.prefix placeholder];
    [reflexivity|].
  intros H. apply andb_prop in H as [Hc Hs].
  rewrite prefix_placeholder_cons.
  - f_equal. auto.
  - intros ->. discriminate.
Qed.

(** [strings.Replace] is the identity on a text that does not contain
    [old]. *)
Lemma replace_not_contained (s old new : string) :
  strings_Contains s old = false -> strings_Replace s old new = s.
Proof.
  unfold strings_Replace. induction s as [|c s IH]; cbn -[String.prefix];
    [reflexivity|].
  intros H. apply orb_false_elim in H as [Hp Hs].
  rewrite Hp. f_equal. auto.
Qed.

Lemma append_empty_r (s : string) : s +:+ "" = s.
Proof.
  induction s as [|c s IH]; [reflexivity|].
  change (String c s +:+ "") with (String c (s +:+ "")). now rewrite IH.
Qed.

Lemma savepoint_text (kw new : string) (n : Z) :
  dollar_free kw = true ->
  strings_Replace (kw +:+ "txn_" +:+ fmt_d n) placeholder new
  = kw +:+ "txn_" +:+ fmt_d n.
Proof.
  intros H. apply replace_dollar_free.
  rewrite !dollar_free_app, H, dollar_free_fmt_d. reflexivity.
Qed.

Lemma delete_text_subst (tbl : string) :
  strings_Replace "DELETE FROM ${MIGRATIONS_TABLE}" placeholder tbl
  = delete_text tbl.
Proof.
  unfold strings_Replace, delete_text. cbn. now rewrite append_empty_r.
Qed.

Lemma insert_text_subst (tbl : string) :
  strings_Replace insert_statement placeholder tbl = insert_text tbl.
Proof. reflexivity. Qed.

Section DriverFacts.
Context {engine : Engine} {runtime : Runtime}.

(** ** [exec]: one call to the engine, the struct untouched *)

Lemma exec_unfold (op : string) (arg : list Value) (s : Sqlite) (w : World) :
  exec op arg s w = (exec_error s w op arg, s, exec_world s w op arg).
Proof.
  unfold exec, exec_error, exec_world, exec_text, bind, this, call_Exec, ret.
  destruct (db_Exec _ _ _ _) as [d [e|]]; reflexivity.
Qed.

Lemma bind_exec {B} (op : string) (arg : list Value)
    (k : option error -> M B) (s : Sqlite) (w : World) :
  bind (exec op arg) k s w = k (exec_error s w op arg) s (exec_world s w op arg).
Proof. unfold bind at 1. rewrite exec_unfold. reflexivity. Qed.

Lemma bind_this {B} (k : Sqlite -> M B) (s : Sqlite) (w : World) :
  bind this k s w = k s s w.
Proof. reflexivity. Qed.

Lemma bind_assign {B} (f : Sqlite -> Sqlite) (k : unit -> M B)
    (s : Sqlite) (w : World) :
  bind (assign f) k s w = k tt (f s) w.
Proof. reflexivity. Qed.

Lemma bind_ret {A B} (a : A) (k : A -> M B) (s : Sqlite) (w : World) :
  bind (ret a) k s w = k a s w.
Proof. reflexivity. Qed.

Lemma bind_bind {A B C} (m : M A) (k : A -> M B) (k' : B -> M C)
    (s : Sqlite) (w : World) :
  bind (bind m k) k' s w = bind m (fun a => bind (k a) k') s w.
Proof. unfold bind. destruct (m s w) as [[a s1] w1]. reflexivity. Qed.

(** ** The lock flag *)

Lemma Lock_locked (s : Sqlite) (w : World) :
  locked s = true -> Lock s w = (Some ErrLocked, s, w).
Proof. intros H. unfold Lock. rewrite bind_this, H. reflexivity. Qed.

(** Whatever the two statements answer, a [Lock] that starts unlocked
    ends with the flag set: the flag is raised before the first
    statement and no path lowers it. *)
Lemma Lock_raises_flag (s : Sqlite) (w : World) :
  locked s = false -> snd (fst (Lock s w)) = set_locked true s.
Proof.
  intros H. unfold Lock. rewrite bind_this, H, bind_assign, bind_exec.
  destruct (exec_error _ _ _ _) as [e|]; [reflexivity|].
  rewrite bind_exec.
  destruct (exec_error _ _ _ _) as [e|]; reflexivity.
Qed.

(** [Unlock] never writes a field of the struct. *)
Lemma Unlock_struct (s : Sqlite) (w : World) : snd (fst (Unlock s w)) = s.
Proof.
  unfold Unlock. rewrite bind_this. destruct (locked s); [|reflexivity].
  cbn [negb]. rewrite bind_exec.
  destruct (exec_error _ _ _ _) as [e|]; reflexivity.
Qed.

Lemma Unlock_unlocked (s : Sqlite) (w : World) :
  locked s = false -> Unlock s w = (None, s, w).
Proof. intros H. unfold Unlock. rewrite bind_this, H. reflexivity. Qed.

(** C8: a second [Lock] with no [Unlock] in between answers [ErrLocked]
    and leaves the struct, the engine and the trace as they were (no
    statement is issued); [Unlock] on a driver that holds no lock answers
    nil and changes nothing either. *)
Theorem Lock_twice_and_Unlock_unlocked (s : Sqlite) (w : World) :
  locked s = false ->
  (forall r1 s1 w1,
      Lock s w = (r1, s1, w1) -> Lock s1 w1 = (Some ErrLocked, s1, w1))
  /\ Unlock s w = (None, s, w).
Proof.
  intros H. split.
  - intros r1 s1 w1 HL. apply Lock_locked.
    pose proof (Lock_raises_flag s w H) as E. rewrite HL in E. cbn in E.
    now subst s1.
  - now apply Unlock_unlocked.
Qed.

(** ** [Drop] *)

(** C10: [Drop] asks the file system to remove the file at [dbPath] and
    does nothing else: the struct (handle, path, table name, lock flag,
    savepoint counter) and the engine are as before, the connection is
    not closed, and this holds whether the removal succeeds or fails. *)
Theorem Drop_frame (s : Sqlite) (w : World) :
  Drop s w =
    (option_map PathError (snd (os_Remove (w_fs w) (dbPath s))),
     s,
     mkWorld (w_db w) (fst (os_Remove (w_fs w) (dbPath s)))
       (w_log w ++ [CRemove (dbPath s)])).
Proof.
  unfold Drop, bind, this, call_Remove, ret.
  destruct (os_Remove _ _) as [f [e|]]; reflexivity.
Qed.

(** ** [Run] *)

Lemma Run_unfold (script : string) (s : Sqlite) (w : World) :
  Run (ReadsAll script) s w = exec script [] s w.
Proof. reflexivity. Qed.

(** C1, as the code has it: [Run] hands the script to the engine in one
    [Exec] call and nothing else.  No savepoint is opened, released or
    rolled back, the savepoint counter does not move, and on failure the
    engine's error comes back wrapped with the statement text; the
    database is left as that one call left it. *)
Theorem Run_single_exec (script : string) (s : Sqlite) (w : World) :
  Run (ReadsAll script) s w =
    (option_map
       (fun e => DatabaseError (EngineError e)
                   (strings_Replace script placeholder (migrationsTable s)))
       (snd (db_Exec (db s) (w_db w)
               (strings_Replace script placeholder (migrationsTable s)) [])),
     s,
     mkWorld
       (fst (db_Exec (db s) (w_db w)
               (strings_Replace script placeholder (migrationsTable s)) []))
       (w_fs w)
       (w_log w
        ++ [CExec (strings_Replace script placeholder (migrationsTable s))
              []])).
Proof. rewrite Run_unfold. apply exec_unfold. Qed.

(** C4, as the code has it: [Run] goes through [exec] like the driver's
    own statements, so the statement the engine receives is the script
    with every placeholder replaced by the table name; it is the script
    itself when the script does not contain the placeholder. *)
Theorem Run_statement_text (script : string) (s : Sqlite) (w : World) :
  w_log (snd (Run (ReadsAll script) s w))
  = (w_log w
     ++ [CExec (strings_Replace script placeholder (migrationsTable s)) []])%list
  /\ (strings_Contains script placeholder = false ->
      strings_Replace script placeholder (migrationsTable s) = script).
Proof.
  split.
  - rewrite Run_unfold, exec_unfold. reflexivity.
  - apply replace_not_contained.
Qed.

(** ** [transactionally] *)

Lemma bind_atomic_AddInt64_txid {B} (k : Z -> M B) (s : Sqlite) (w : World) :
  bind (atomic_AddInt64_txid 1) k s w = k (wrap64 (txid s + 1)) (bump s) w.
Proof. reflexivity. Qed.

(** The savepoint statements hold no placeholder: [exec] hands them to
    the engine as written. *)
Lemma exec_text_savepoint (kw : string) (s s' : Sqlite) :
  dollar_free kw = true ->
  exec_text s' (kw +:+ txname_of s) = kw +:+ txname_of s.
Proof. intros H. unfold exec_text, txname_of. now apply savepoint_text. Qed.

(** The three ways through [transactionally]: the savepoint is refused,
    the thunk fails, the thunk succeeds. *)
Lemma transactionally_unfold (thunk : M (option error))
    (s : Sqlite) (w : World) :
  transactionally thunk s w =
    match exec_error (bump s) w ("SAVEPOINT " +:+ txname_of s) [] with
    | Some e =>
        (Some e, bump s,
         exec_world (bump s)
           (exec_world (bump s) w ("SAVEPOINT " +:+ txname_of s) [])
           ("ROLLBACK TO " +:+ txname_of s) [])
    | None =>
        let '(r, s2, w2) :=
          thunk (bump s)
            (exec_world (bump s) w ("SAVEPOINT " +:+ txname_of s) []) in
        match r with
        | Some e =>
            (Some e, s2, exec_world s2 w2 ("ROLLBACK TO " +:+ txname_of s) [])
        | None =>
            (None, s2, exec_world s2 w2 ("RELEASE " +:+ txname_of s) [])
        end
    end.
Proof.
  unfold transactionally. rewrite bind_atomic_AddInt64_txid.
  fold (txname_of s). rewrite bind_bind, bind_exec.
  destruct (exec_error _ _ _ _) as [e|].
  - rewrite bind_ret. cbn [negb]. rewrite bind_bind, bind_exec. reflexivity.
  - rewrite bind_bind. unfold bind at 1.
    destruct (thunk _ _) as [[[e|] s2] w2].
    + rewrite bind_ret. cbn [negb]. rewrite bind_bind, bind_exec. reflexivity.
    + rewrite bind_bind, bind_exec, bind_ret. reflexivity.
Qed.

Lemma exec_world_savepoint (kw : string) (s s' : Sqlite) (w : World) :
  dollar_free kw = true ->
  exec_world s' w (kw +:+ txname_of s) [] =
    mkWorld (fst (db_Exec (db s') (w_db w) (kw +:+ txname_of s) [])) (w_fs w)
      (w_log w ++ [CExec (kw +:+ txname_of s) []]).
Proof. intros H. unfold exec_world. now rewrite exec_text_savepoint. Qed.

(** C7: when the savepoint was created and the action fails with [e],
    [transactionally] returns [e] itself, and the last statement it
    issues, after everything the action did, is [ROLLBACK TO] its
    savepoint.  The answer of that statement appears nowhere in the
    result: a failing rollback cannot replace [e]. *)
Theorem transactionally_failure (thunk : M (option error))
    (s : Sqlite) (w : World) (e : error) (s2 : Sqlite) (w2 : World) :
  exec_error (bump s) w ("SAVEPOINT " +:+ txname_of s) [] = None ->
  thunk (bump s) (exec_world (bump s) w ("SAVEPOINT " +:+ txname_of s) [])
  = (Some e, s2, w2) ->
  transactionally thunk s w =
    (Some e, s2,
     mkWorld
       (fst (db_Exec (db s2) (w_db w2) ("ROLLBACK TO " +:+ txname_of s) []))
       (w_fs w2)
       (w_log w2 ++ [CExec ("ROLLBACK TO " +:+ txname_of s) []])).
Proof.
  intros Hsp Hth. rewrite transactionally_unfold, Hsp, Hth.
  now rewrite exec_world_savepoint.
Qed.

(** C9: when the savepoint was created and the action succeeds,
    [transactionally] returns nil and its last statement is [RELEASE];
    the answer of that statement is dropped, so a failing release is
    invisible to the caller, and no rollback follows. *)
Theorem transactionally_release_ignored (thunk : M (option error))
    (s : Sqlite) (w : World) (s2 : Sqlite) (w2 : World) :
  exec_error (bump s) w ("SAVEPOINT " +:+ txname_of s) [] = None ->
  thunk (bump s) (exec_world (bump s) w ("SAVEPOINT " +:+ txname_of s) [])
  = (None, s2, w2) ->
  transactionally thunk s w =
    (None, s2,
     mkWorld
       (fst (db_Exec (db s2) (w_db w2) ("RELEASE " +:+ txname_of s) []))
       (w_fs w2)
       (w_log w2 ++ [CExec ("RELEASE " +:+ txname_of s) []])).
Proof.
  intros Hsp Hth. rewrite transactionally_unfold, Hsp, Hth.
  now rewrite exec_world_savepoint.
Qed.

End DriverFacts.

Section Bookkeeping.
Context {engine : Engine} {runtime : Runtime}.
Variable rows : DB -> option (list (list Value)).

Lemma exec_error_None (s : Sqlite) (w : World) (op : string)
    (arg : list Value) :
  exec_error s w op arg = None ->
  db_Exec (db s) (w_db w) (exec_text s op) arg
  = (w_db (exec_world s w op arg), None).
Proof.
  unfold exec_error, exec_world. cbn.
  destruct (db_Exec _ _ _ _) as [d [e|]]; cbn; [discriminate|reflexivity].
Qed.

(** A [SetVersion] that returns nil went through every statement: the
    savepoint, the delete and, for a version that is not negative, the
    insert, were all accepted. *)
Lemma SetVersion_success (s : Sqlite) (w : World) (version : Z) (dirty : bool)
    (s' : Sqlite) (w' : World) :
  SetVersion version dirty s w = (None, s', w') ->
  exists w1 w2 w3,
    w1 = exec_world (bump s) w ("SAVEPOINT " +:+ txname_of s) []
    /\ w2 = exec_world (bump s) w1 "DELETE FROM ${MIGRATIONS_TABLE}" []
    /\ w3 = (if (version >=? 0)%Z
             then exec_world (bump s) w2 insert_statement
                    [VInt version; VBool dirty]
             else w2)
    /\ s' = bump s
    /\ w' = exec_world (bump s) w3 ("RELEASE " +:+ txname_of s) []
    /\ exec_error (bump s) w1 "DELETE FROM ${MIGRATIONS_TABLE}" [] = None
    /\ ((version >=? 0)%Z = true ->
        exec_error (bump s) w2 insert_statement [VInt version; VBool dirty]
        = None).
Proof.
  unfold SetVersion. rewrite transactionally_unfold.
  destruct (exec_error (bump s) w _ []) as [e|]; [discriminate|].
  rewrite bind_exec.
  destruct (exec_error (bump s) _ "DELETE FROM ${MIGRATIONS_TABLE}" [])
    as [e|] eqn:Hdel; [discriminate|].
  destruct (version >=? 0)%Z eqn:Hv.
  - rewrite exec_unfold.
    destruct (exec_error (bump s) _ insert_statement _) as [e|] eqn:Hins;
      [discriminate|].
    intros [= <- <-]. do 3 eexists.
    repeat split; try reflexivity; [exact Hdel|intros _; exact Hins].
  - unfold ret. intros [= <- <-]. do 3 eexists.
    repeat split; try reflexivity; [exact Hdel|discriminate].
Qed.

Lemma exec_world_log (s : Sqlite) (w : World) (op : string)
    (arg : list Value) :
  w_log (exec_world s w op arg) = (w_log w ++ [CExec (exec_text s op) arg])%list.
Proof. reflexivity. Qed.

Lemma exec_world_db (s : Sqlite) (w : World) (op : string)
    (arg : list Value) :
  w_db (exec_world s w op arg)
  = fst (db_Exec (db s) (w_db w) (exec_text s op) arg).
Proof. reflexivity. Qed.

Lemma exec_text_delete (s : Sqlite) :
  exec_text (bump s) "DELETE FROM ${MIGRATIONS_TABLE}"
  = delete_text (migrationsTable s).
Proof. apply delete_text_subst. Qed.

Lemma exec_text_insert (s : Sqlite) :
  exec_text (bump s) insert_statement = insert_text (migrationsTable s).
Proof. apply insert_text_subst. Qed.

(** C5: a [SetVersion] that succeeds issued, inside its savepoint, the
    delete of all rows and then the insert of the row (version, dirty)
    exactly when the version is not negative; on an engine that obeys
    the bookkeeping laws the table then holds that one row, or no row
    for a negative version, hence at most one row. *)
Theorem SetVersion_delete_then_insert (s : Sqlite) (w : World)
    (version : Z) (dirty : bool) (s' : Sqlite) (w' : World) :
  BookkeepingEngine (db s) (migrationsTable s) (txname_of s) rows ->
  SetVersion version dirty s w = (None, s', w') ->
  w_log w' =
    (w_log w
     ++ [CExec ("SAVEPOINT " +:+ txname_of s) [];
         CExec (delete_text (migrationsTable s)) []]
     ++ (if (version >=? 0)%Z
         then [CExec (insert_text (migrationsTable s))
                 [VInt version; VBool dirty]]
         else [])
     ++ [CExec ("RELEASE " +:+ txname_of s) []])%list
  /\ rows (w_db w')
     = Some (if (version >=? 0)%Z then [[VInt version; VBool dirty]] else [])
  /\ (exists l, rows (w_db w') = Some l /\ (length l <= 1)%nat).
Proof.
  intros L H.
  destruct (SetVersion_success _ _ _ _ _ _ H)
    as (w1 & w2 & w3 & -> & -> & -> & -> & -> & Hdel & Hins).
  assert (Hrows :
    rows (w_db (exec_world (bump s)
      (if (version >=? 0)%Z
       then exec_world (bump s)
              (exec_world (bump s)
                 (exec_world (bump s) w ("SAVEPOINT " +:+ txname_of s) [])
                 "DELETE FROM ${MIGRATIONS_TABLE}" [])
              insert_statement [VInt version; VBool dirty]
       else exec_world (bump s)
              (exec_world (bump s) w ("SAVEPOINT " +:+ txname_of s) [])
              "DELETE FROM ${MIGRATIONS_TABLE}" [])
      ("RELEASE " +:+ txname_of s) []))
    = Some (if (version >=? 0)%Z then [[VInt version; VBool dirty]] else [])).
  { rewrite exec_world_db, exec_text_savepoint by reflexivity.
    change (db (bump s)) with (db s). rewrite (law_release _ _ _ _ L).
    apply exec_error_None in Hdel. rewrite exec_text_delete in Hdel.
    pose proof (law_delete _ _ _ _ L _ _ Hdel) as Hempty.
    destruct (version >=? 0)%Z; [|exact Hempty].
    specialize (Hins eq_refl). apply exec_error_None in Hins.
    rewrite exec_text_insert in Hins.
    exact (law_insert _ _ _ _ L _ _ _ _ _ Hins Hempty). }
  split; [|split].
  - destruct (version >=? 0)%Z;
      rewrite !exec_world_log, !exec_text_savepoint by reflexivity;
      rewrite ?exec_text_insert, exec_text_delete;
      rewrite <- !app_assoc; reflexivity.
  - exact Hrows.
  - eexists; split; [exact Hrows|]. destruct (version >=? 0)%Z; cbn; lia.
Qed.

(** C6: on an engine that obeys the bookkeeping laws, [Version] after a
    successful [SetVersion version dirty] returns (version, dirty, nil)
    for a version that is not negative and (-1, false, nil) for a
    negative one; and [Version] on an empty table returns
    (-1, false, nil), without error. *)
Theorem SetVersion_Version_roundtrip (s : Sqlite) :
  BookkeepingEngine (db s) (migrationsTable s) (txname_of s) rows ->
  (forall w version dirty s' w',
      SetVersion version dirty s w = (None, s', w') ->
      fst (fst (Version s' w'))
      = if (version >=? 0)%Z then (version, dirty, None)
        else (NilVersion, false, None))
  /\ (forall w, rows (w_db w) = Some [] ->
                fst (fst (Version s w)) = (NilVersion, false, None)).
Proof.
  intros L.
  assert (Hread : forall s' w l,
    db s' = db s -> migrationsTable s' = migrationsTable s ->
    rows (w_db w) = Some l ->
    fst (fst (Version s' w)) =
      match l with
      | [] => (NilVersion, false, None)
      | [c0; c1] :: _ =>
          match scan_int c0, scan_bool c1 with
          | Some v, Some d => (v, d, None)
          | None, _ =>
              (0, false,
               Some (DatabaseError (ScanError 0)
                       (select_text (migrationsTable s))))
          | Some _, None =>
              (0, false,
               Some (DatabaseError (ScanError 1)
                       (select_text (migrationsTable s))))
          end
      | cols :: _ =>
          (0, false,
           Some (DatabaseError (ScanArityError (length cols))
                   (select_text (migrationsTable s))))
      end).
  { intros s' w l Hdb Htbl Hl.
    pose proof (law_select _ _ _ _ L (w_db w)) as Hsel. rewrite Hl in Hsel.
    unfold Version. rewrite bind_this. fold (select_text (migrationsTable s')).
    rewrite Htbl, Hdb. unfold bind, call_QueryRow.
    destruct (db_QueryRow _ _ _ _) as [d r]. cbn in Hsel.
    destruct l as [|row l]; subst r; [reflexivity|].
    destruct row as [|c0 [|c1 [|c2 row]]]; try reflexivity.
    destruct (scan_int c0); [|reflexivity].
    destruct (scan_bool c1); reflexivity. }
  split.
  - intros w version dirty s' w' H.
    destruct (SetVersion_delete_then_insert _ _ _ _ _ _ L H) as (_ & Hr & _).
    destruct (SetVersion_success _ _ _ _ _ _ H)
      as (_ & _ & _ & _ & _ & _ & -> & _).
    rewrite (Hread (bump s) _ _ eq_refl eq_refl Hr).
    destruct (version >=? 0)%Z; reflexivity.
  - intros w Hw. now rewrite (Hread s _ _ eq_refl eq_refl Hw).
Qed.

End Bookkeeping.

(** ** The driver on the small engine *)

Section Concrete.
Import Toy.

Lemma Open_fresh : Open "/tmp/m.db" fresh_world = (inl drv, world0).
Proof. vm_compute. reflexivity. Qed.

Lemma table_put_table (t : string) (rows : Rows) (ts : Tables) :
  table t (put_table t rows ts) = Some rows.
Proof.
  induction ts as [|[n old] rest IH]; cbn.
  - now rewrite String.eqb_refl.
  - destruct (String.eqb n t) eqn:E; cbn; now rewrite E.
Qed.

Lemma txname_of_drv : txname_of drv = "txn_1".
Proof. reflexivity. Qed.

(** The small engine obeys the bookkeeping laws, in every state. *)
Lemma toy_laws :
  BookkeepingEngine tt "schema_migrations" "txn_1" (rows_of "schema_migrations").
Proof.
  split.
  - intros d. cbn [db_Exec engine]. unfold Exec.
    destruct (closed d) eqn:Hc; [reflexivity|].
    change (parse ("SAVEPOINT " +:+ "txn_1")) with [["SAVEPOINT"; "txn_1"]].
    cbn [run]. unfold step.
    change (classify ["SAVEPOINT"; "txn_1"]) with (SSavepoint "txn_1").
    reflexivity.
  - intros d. cbn [db_Exec engine]. unfold Exec.
    destruct (closed d) eqn:Hc; [reflexivity|].
    change (parse ("RELEASE " +:+ "txn_1")) with [["RELEASE"; "txn_1"]].
    cbn [run]. unfold step.
    change (classify ["RELEASE"; "txn_1"]) with (SRelease "txn_1").
    cbv beta iota.
    destruct (from_savepoint _ _) as [[|? outer]|]; reflexivity.
  - intros d d'. cbn [db_Exec engine]. unfold Exec.
    destruct (closed d) eqn:Hc; [discriminate|].
    change (parse (delete_text "schema_migrations"))
      with [["DELETE"; "FROM"; "schema_migrations"]].
    cbn [run]. unfold step.
    change (classify ["DELETE"; "FROM"; "schema_migrations"])
      with (SDelete "schema_migrations").
    cbv beta iota.
    destruct (table "schema_migrations" (tables d)) as [l|]; [|discriminate].
    intros [= <-]. unfold rows_of. cbn. rewrite Hc.
    apply table_put_table.
  - intros d d' v b l. cbn [db_Exec engine]. unfold Exec.
    destruct (closed d) eqn:Hc; [discriminate|].
    change (parse (insert_text "schema_migrations"))
      with [["INSERT"; "INTO"; "schema_migrations"; "("; "version"; ",";
             "dirty"; ")"; "VALUES"; "("; "$1"; ","; "$2"; ")"]].
    cbn [run]. unfold step.
    change (classify _) with (SInsert "schema_migrations").
    cbv beta iota.
    unfold rows_of. rewrite Hc.
    destruct (table "schema_migrations" (tables d)) as [l0|]; [|discriminate].
    destruct (existsb (same_key v) l0); [discriminate|].
    intros [= <-] [= ->]. cbn. rewrite Hc. apply table_put_table.
  - intros d. unfold rows_of. cbn [db_QueryRow engine]. unfold QueryRow.
    destruct (closed d) eqn:Hc; [exact I|].
    change (classify_query (parse (select_text "schema_migrations")))
      with (QVersion "schema_migrations").
    cbv beta iota.
    destruct (table "schema_migrations" (tables d)) as [[|r l]|]; reflexivity.
Qed.

(** C8 at the freshly opened driver. *)
Lemma Lock_twice_and_Unlock_unlocked_witness :
  locked drv = false
  /\ ((forall r1 s1 w1,
          Lock drv world0 = (r1, s1, w1) ->
          Lock s1 w1 = (Some ErrLocked, s1, w1))
      /\ Unlock drv world0 = (None, drv, world0)).
Proof.
  split; [reflexivity|].
  exact (Lock_twice_and_Unlock_unlocked drv world0 eq_refl).
Defined.

(** C2 fails on the code.  The database is held by another connection:
    [BEGIN EXCLUSIVE] is refused and [Lock] returns that error, yet the
    flag stays set, and the next [Lock] answers [ErrLocked] although no
    lock was taken. *)
Theorem Lock_failure_leaves_flag_set :
  locked drv = false
  /\ Lock drv contended_world =
       (Some (DatabaseError (EngineError DatabaseIsLocked) "BEGIN EXCLUSIVE"),
        set_locked true drv,
        mkWorld (w_db contended_world) (w_fs contended_world)
          (w_log contended_world
           ++ [CExec "PRAGMA locking_mode = EXCLUSIVE" [];
               CExec "BEGIN EXCLUSIVE" []]))
  /\ locked (snd (fst (Lock drv contended_world))) = true
  /\ in_txn (w_db (snd (Lock drv contended_world))) = false
  /\ fst (fst (Lock (snd (fst (Lock drv contended_world)))
                 (snd (Lock drv contended_world))))
     = Some ErrLocked.
Proof. vm_compute. repeat split; reflexivity. Qed.

(** C3 fails on the code.  [Lock] then [Unlock] both succeed and the
    transaction is committed, but [Unlock] leaves the flag set: the
    next [Lock] answers [ErrLocked] and issues no statement. *)
Theorem Unlock_leaves_flag_set :
  fst (fst (Lock drv world0)) = None
  /\ locked (snd (fst (Lock drv world0))) = true
  /\ Unlock (snd (fst (Lock drv world0))) (snd (Lock drv world0)) =
       (None,
        set_locked true drv,
        mkWorld bootstrapped_db (w_fs world0)
          (w_log world0
           ++ [CExec "PRAGMA locking_mode = EXCLUSIVE" [];
               CExec "BEGIN EXCLUSIVE" []; CExec "COMMIT" []]))
  /\ Lock (set_locked true drv)
       (mkWorld bootstrapped_db (w_fs world0)
          (w_log world0
           ++ [CExec "PRAGMA locking_mode = EXCLUSIVE" [];
               CExec "BEGIN EXCLUSIVE" []; CExec "COMMIT" []]))
     = (Some ErrLocked,
        set_locked true drv,
        mkWorld bootstrapped_db (w_fs world0)
          (w_log world0
           ++ [CExec "PRAGMA locking_mode = EXCLUSIVE" [];
               CExec "BEGIN EXCLUSIVE" []; CExec "COMMIT" []])).
Proof. vm_compute. repeat split; reflexivity. Qed.

(** C1 fails on the code.  The script creates table [t] and then holds
    a statement the engine refuses: [Run] fails, it issued the script
    alone (no savepoint around it, the counter has not moved), and
    table [t], absent before, is there afterwards. *)
Lemma Run_failure_keeps_first_statement :
  fst (fst (Run (ReadsAll half_valid_script) drv world0))
  = Some (DatabaseError (EngineError (SyntaxError ["BOGUS"]))
            half_valid_script)
  /\ snd (fst (Run (ReadsAll half_valid_script) drv world0)) = drv
  /\ w_log (snd (Run (ReadsAll half_valid_script) drv world0))
     = (w_log world0 ++ [CExec half_valid_script []])%list
  /\ table "t" (tables (w_db world0)) = None
  /\ table "t" (tables (w_db (snd (Run (ReadsAll half_valid_script) drv world0))))
     = Some [].
Proof. vm_compute. repeat split; reflexivity. Qed.

(** C4 fails on the code.  The script mentions the placeholder: the
    statement the engine receives has the table name in its place, and
    is not the script. *)
Lemma Run_substitutes_placeholder :
  w_log (snd (Run (ReadsAll placeholder_script) drv world0))
  = (w_log world0
     ++ [CExec "CREATE TABLE schema_migrations_audit (x int)" []])%list
  /\ "CREATE TABLE schema_migrations_audit (x int)" <> placeholder_script.
Proof. split; [vm_compute; reflexivity|discriminate]. Qed.

(** C4 as amended, at a script without the placeholder. *)
Lemma Run_statement_text_witness :
  strings_Contains "CREATE TABLE t (x int)" placeholder = false
  /\ w_log (snd (Run (ReadsAll "CREATE TABLE t (x int)") drv world0))
     = (w_log world0 ++ [CExec "CREATE TABLE t (x int)" []])%list.
Proof.
  split; [reflexivity|].
  destruct (Run_statement_text "CREATE TABLE t (x int)" drv world0)
    as [Hlog Hsame].
  rewrite Hlog, (Hsame eq_refl). reflexivity.
Defined.

(** The rollback at work: an action deletes the row and then fails;
    after [transactionally] the row is back. *)
Example transactionally_rollback_restores_rows :
  rows_of "schema_migrations" (w_db versioned_world)
  = Some [[VInt 5; VBool false]]
  /\ fst (fst (transactionally delete_then_fail drv versioned_world))
     = Some (DatabaseError (EngineError (SyntaxError ["BOGUS"])) "BOGUS")
  /\ rows_of "schema_migrations"
       (w_db (snd (delete_then_fail (bump drv)
                     (exec_world (bump drv) versioned_world
                        "SAVEPOINT txn_1" []))))
     = Some []
  /\ rows_of "schema_migrations"
       (w_db (snd (transactionally delete_then_fail drv versioned_world)))
     = Some [[VInt 5; VBool false]].
Proof. vm_compute. repeat split; reflexivity. Qed.

(** C7 at an action that releases the savepoint and then fails: the
    driver's [ROLLBACK TO txn_1] is refused by the engine, and the
    action's error is what [transactionally] returns. *)
Lemma transactionally_failure_witness :
  exec_error (bump drv) world0 ("SAVEPOINT " +:+ txname_of drv) [] = None
  /\ fst (fst (release_then_fail (bump drv)
                 (exec_world (bump drv) world0
                    ("SAVEPOINT " +:+ txname_of drv) [])))
     = Some (DatabaseError (EngineError (SyntaxError ["BOGUS"])) "BOGUS")
  /\ fst (fst (transactionally release_then_fail drv world0))
     = Some (DatabaseError (EngineError (SyntaxError ["BOGUS"])) "BOGUS")
  /\ w_log (snd (transactionally release_then_fail drv world0))
     = (w_log world0
        ++ [CExec "SAVEPOINT txn_1" []; CExec "RELEASE txn_1" [];
            CExec "BOGUS" []; CExec "ROLLBACK TO txn_1" []])%list
  /\ exec_error (bump drv)
       (snd (release_then_fail (bump drv)
               (exec_world (bump drv) world0
                  ("SAVEPOINT " +:+ txname_of drv) [])))
       "ROLLBACK TO txn_1" []
     = Some (DatabaseError (EngineError (NoSuchSavepoint "txn_1"))
               "ROLLBACK TO txn_1").
Proof.
  pose proof
    (transactionally_failure release_then_fail drv world0
       (DatabaseError (EngineError (SyntaxError ["BOGUS"])) "BOGUS")
       (snd (fst (release_then_fail (bump drv)
                    (exec_world (bump drv) world0
                       ("SAVEPOINT " +:+ txname_of drv) []))))
       (snd (release_then_fail (bump drv)
               (exec_world (bump drv) world0
                  ("SAVEPOINT " +:+ txname_of drv) [])))
       ltac:(vm_compute; reflexivity) ltac:(vm_compute; reflexivity)) as H.
  rewrite H. vm_compute. repeat split; reflexivity.
Defined.

(** C9 at an action that releases the savepoint and succeeds: the
    driver's [RELEASE txn_1] is refused by the engine, and
    [transactionally] returns nil all the same. *)
Lemma transactionally_release_ignored_witness :
  exec_error (bump drv) world0 ("SAVEPOINT " +:+ txname_of drv) [] = None
  /\ fst (fst (release_only (bump drv)
                 (exec_world (bump drv) world0
                    ("SAVEPOINT " +:+ txname_of drv) [])))
     = None
  /\ fst (fst (transactionally release_only drv world0)) = None
  /\ w_log (snd (transactionally release_only drv world0))
     = (w_log world0
        ++ [CExec "SAVEPOINT txn_1" []; CExec "RELEASE txn_1" [];
            CExec "RELEASE txn_1" []])%list
  /\ exec_error (bump drv)
       (snd (release_only (bump drv)
               (exec_world (bump drv) world0
                  ("SAVEPOINT " +:+ txname_of drv) [])))
       "RELEASE txn_1" []
     = Some (DatabaseError (EngineError (NoSuchSavepoint "txn_1"))
               "RELEASE txn_1").
Proof.
  pose proof
    (transactionally_release_ignored release_only drv world0
       (snd (fst (release_only (bump drv)
                    (exec_world (bump drv) world0
                       ("SAVEPOINT " +:+ txname_of drv) []))))
       (snd (release_only (bump drv)
               (exec_world (bump drv) world0
                  ("SAVEPOINT " +:+ txname_of drv) [])))
       ltac:(vm_compute; reflexivity) ltac:(vm_compute; reflexivity)) as H.
  rewrite H. vm_compute. repeat split; reflexivity.
Defined.

(** C5 at [SetVersion 5 false] on the freshly opened driver. *)
Lemma SetVersion_delete_then_insert_witness :
  BookkeepingEngine (db drv) (migrationsTable drv) (txname_of drv)
    (rows_of "schema_migrations")
  /\ SetVersion 5 false drv world0
     = (None, bump drv, snd (SetVersion 5 false drv world0))
  /\ w_log (snd (SetVersion 5 false drv world0))
     = (w_log world0
        ++ [CExec "SAVEPOINT txn_1" [];
            CExec (delete_text "schema_migrations") []]
        ++ [CExec (insert_text "schema_migrations") [VInt 5; VBool false]]
        ++ [CExec "RELEASE txn_1" []])%list
  /\ rows_of "schema_migrations" (w_db (snd (SetVersion 5 false drv world0)))
     = Some [[VInt 5; VBool false]]
  /\ (exists l,
         rows_of "schema_migrations"
           (w_db (snd (SetVersion 5 false drv world0))) = Some l
         /\ (length l <= 1)%nat).
Proof.
  split; [exact toy_laws|].
  split; [vm_compute; reflexivity|].
  exact (@SetVersion_delete_then_insert engine runtime
           (rows_of "schema_migrations") drv world0 5 false (bump drv)
           (snd (SetVersion 5 false drv world0))
           toy_laws ltac:(vm_compute; reflexivity)).
Defined.

(** C6 at the freshly opened driver: version 5, version -1, and the
    empty table that [Open] leaves. *)
Lemma SetVersion_Version_roundtrip_witness :
  BookkeepingEngine (db drv) (migrationsTable drv) (txname_of drv)
    (rows_of "schema_migrations")
  /\ fst (fst (Version (bump drv) (snd (SetVersion 5 false drv world0))))
     = (5, false, None)
  /\ fst (fst (Version (bump drv) (snd (SetVersion (-1) true drv world0))))
     = (-1, false, None)
  /\ fst (fst (Version drv world0)) = (-1, false, None).
Proof.
  split; [exact toy_laws|].
  destruct (@SetVersion_Version_roundtrip engine runtime
              (rows_of "schema_migrations") drv toy_laws) as [Hset Hempty].
  split; [|split].
  - exact (Hset world0 5 false (bump drv)
             (snd (SetVersion 5 false drv world0))
             ltac:(vm_compute; reflexivity)).
  - exact (Hset world0 (-1) true (bump drv)
             (snd (SetVersion (-1) true drv world0))
             ltac:(vm_compute; reflexivity)).
  - exact (Hempty world0 ltac:(vm_compute; reflexivity)).
Defined.

End Concrete.

(** * Further properties of the driver *)

(** ** The savepoint counter and the savepoint names *)






Section SavepointNames.
Context {engine : Engine} {runtime : Runtime}.


End SavepointNames.

Lemma create_text_subst (tbl : string) :
  strings_Replace
    "CREATE TABLE ${MIGRATIONS_TABLE} (version bigint not null primary key, dirty boolean not null)"
    placeholder tbl
  = create_text tbl.
Proof. reflexivity. Qed.

Section OpenFacts.
Context {engine : Engine} {runtime : Runtime}.

Lemma bind_call_QueryRow {B} (h : Handle) (query : string) (arg : list Value)
    (k : QueryResult EngErr -> M B) (s : Sqlite) (w : World) :
  bind (call_QueryRow h query arg) k s w =
    k (snd (db_QueryRow h (w_db w) query arg)) s
      (mkWorld (fst (db_QueryRow h (w_db w) query arg)) (w_fs w)
         (w_log w ++ [CQueryRow query arg])).
Proof.
  unfold bind, call_QueryRow. destruct (db_QueryRow _ _ _ _); reflexivity.
Qed.

(** The paths through [ensureVersionTable]: the catalog cannot be read,
    it lists the table once, or the table is created. *)
Lemma ensureVersionTable_unfold (s : Sqlite) (w : World) :
  ensureVersionTable s w =
    let w1 :=
      mkWorld
        (fst (db_QueryRow (db s) (w_db w) catalog_query
                [VText (migrationsTable s)]))
        (w_fs w)
        (w_log w ++ [CQueryRow catalog_query [VText (migrationsTable s)]]) in
    match catalog_count
            (snd (db_QueryRow (db s) (w_db w) catalog_query
                    [VText (migrationsTable s)])) with
    | inr err => (Some (DatabaseError err catalog_query), s, w1)
    | inl count =>
        if (count =? 1)%Z then (None, s, w1)
        else
          (option_map
             (fun e => DatabaseError (EngineError e)
                         (create_text (migrationsTable s)))
             (snd (db_Exec (db s) (w_db w1)
                     (create_text (migrationsTable s)) [])),
           s,
           mkWorld
             (fst (db_Exec (db s) (w_db w1)
                     (create_text (migrationsTable s)) []))
             (w_fs w)
             (w_log w1 ++ [CExec (create_text (migrationsTable s)) []]))
    end.
Proof.
  unfold ensureVersionTable. rewrite bind_this, bind_call_QueryRow.
  fold catalog_query. cbv zeta.
  change (match snd (db_QueryRow (db s) (w_db w) catalog_query
                       [VText (migrationsTable s)]) with
          | QRow [] => _ | _ => _ end)
    with (catalog_count (snd (db_QueryRow (db s) (w_db w) catalog_query
                                [VText (migrationsTable s)]))).
  destruct (catalog_count _) as [count|err]; [|reflexivity].
  destruct (count =? 1)%Z; [reflexivity|].
  rewrite bind_exec. unfold exec_error, exec_world, exec_text.
  rewrite create_text_subst. cbn [w_db w_fs w_log].
  destruct (snd (db_Exec _ _ _ _)); reflexivity.
Qed.

Lemma ensureVersionTable_struct (s : Sqlite) (w : World) :
  snd (fst (ensureVersionTable s w)) = s.
Proof.
  rewrite ensureVersionTable_unfold. cbv zeta.
  destruct (catalog_count _) as [count|err]; [|reflexivity].
  destruct (count =? 1)%Z; reflexivity.
Qed.

(** X1: the driver a successful [Open] returns holds the handle that
    [sql.Open] gave, the path of the locator, the table name of the
    [x-migrations-table] option (its first value) or
    [schema_migrations] without the option, a clear lock flag and a
    zero savepoint counter. *)
Theorem Open_success_fields (uri : string) (u : URL) (w : World)
    (s : Sqlite) (w' : World) :
  url_Parse uri = inl u ->
  Open uri w = (inl s, w') ->
  snd (sql_Open (w_db w) (Path u)) = inl (db s)
  /\ dbPath s = Path u
  /\ migrationsTable s =
       match Query u !! "x-migrations-table" with
       | Some (v, _) => v
       | None => "schema_migrations"
       end
  /\ locked s = false
  /\ txid s = 0.
Proof.
  intros Hu. unfold Open. rewrite Hu.
  destruct (sql_Open _ _) as [d [h|e]]; [|discriminate].
  destruct (db_Ping _ _) as [d2 [e|]]; [discriminate|].
  match goal with
  | |- context [ensureVersionTable ?s0 ?w0] =>
      pose proof (ensureVersionTable_struct s0 w0) as Hs;
      destruct (ensureVersionTable s0 w0) as [[[e|] s3] w3]
  end; [discriminate|].
  cbn in Hs. subst s3. intros [= <- <-]. cbn.
  unfold getOptionWithDefault, DefaultMigrationsTable.
  destruct (Query u !! "x-migrations-table") as [[v vs]|]; auto.
Qed.


Section Catalog.
Variable present : DB -> bool.

(** A successful [ensureVersionTable] leaves the table listed in the
    catalog. *)
Lemma ensureVersionTable_present (s : Sqlite) (w : World)
    (s' : Sqlite) (w' : World) :
  CatalogEngine (db s) (migrationsTable s) present ->
  ensureVersionTable s w = (None, s', w') ->
  s' = s /\ present (w_db w') = true.
Proof.
  intros L. rewrite ensureVersionTable_unfold. cbv zeta.
  destruct (db_QueryRow (db s) (w_db w) catalog_query
              [VText (migrationsTable s)]) as [d r] eqn:Hq.
  cbn [fst snd].
  pose proof (law_catalog _ _ _ L (w_db w)) as Hc.
  pose proof (law_catalog_pure _ _ _ L (w_db w)) as Hp.
  rewrite Hq in Hc, Hp. cbn [fst snd] in Hc, Hp.
  destruct (catalog_count r) as [count|err] eqn:Hcount; [|discriminate].
  destruct (count =? 1)%Z eqn:H1.
  - intros [= <- <-]. split; [reflexivity|]. cbn. rewrite Hp. apply Hc.
    apply Z.eqb_eq in H1. subst count.
    destruct r as [[|c [|c' cols]]| |e]; try discriminate.
    cbn in Hcount. destruct c; try discriminate. now injection Hcount as ->.
  - cbn [w_db].
    destruct (db_Exec (db s) d (create_text (migrationsTable s)) [])
      as [d' [e|]] eqn:Hx; [discriminate|].
    intros [= <- <-]. split; [reflexivity|]. cbn.
    exact (law_create _ _ _ L _ _ Hx).
Qed.

(** X3: bootstrap is idempotent.  On an engine whose catalog obeys the
    laws, [ensureVersionTable] after a successful [ensureVersionTable]
    asks the catalog and stops there: it returns nil and issues no
    [CREATE TABLE]. *)
Theorem ensureVersionTable_idempotent (s : Sqlite) (w : World)
    (s' : Sqlite) (w' : World) :
  CatalogEngine (db s) (migrationsTable s) present ->
  ensureVersionTable s w = (None, s', w') ->
  ensureVersionTable s' w' =
    (None, s,
     mkWorld
       (fst (db_QueryRow (db s) (w_db w') catalog_query
               [VText (migrationsTable s)]))
       (w_fs w')
       (w_log w' ++ [CQueryRow catalog_query [VText (migrationsTable s)]])).
Proof.
  intros L H. destruct (ensureVersionTable_present _ _ _ _ L H) as [-> Hp].
  rewrite ensureVersionTable_unfold. cbv zeta.
  apply (law_catalog _ _ _ L) in Hp. rewrite Hp. reflexivity.
Qed.

(** X4: after a successful [Open] the bookkeeping table is listed in
    the catalog, whether [Open] found it or created it. *)
Theorem Open_bootstraps (uri : string) (w : World) (s : Sqlite) (w' : World) :
  CatalogEngine (db s) (migrationsTable s) present ->
  Open uri w = (inl s, w') ->
  present (w_db w') = true.
Proof.
  intros L. unfold Open. destruct (url_Parse uri) as [u|e]; [|discriminate].
  destruct (sql_Open _ _) as [d [h|e]]; [|discriminate].
  destruct (db_Ping _ _) as [d2 [e|]]; [discriminate|].
  match goal with
  | |- context [ensureVersionTable ?s0 ?w0] =>
      pose proof (ensureVersionTable_struct s0 w0) as Hs;
      destruct (ensureVersionTable s0 w0) as [[[e|] s3] w3] eqn:He
  end; [discriminate|].
  cbn in Hs. intros [= <- <-]. subst s3.
  now destruct (ensureVersionTable_present _ _ _ _ L He).
Qed.

End Catalog.

(** ** [Close] *)

(** X5: [Close] closes the handle and does nothing else: no [COMMIT] is
    issued and no field is written, so a driver that holds the lock is
    closed with its transaction open and its flag set; the engine's error
    is returned as it is. *)
Theorem Close_frame (s : Sqlite) (w : World) :
  Close s w =
    (option_map EngineError (snd (db_Close (db s) (w_db w))),
     s,
     mkWorld (fst (db_Close (db s) (w_db w))) (w_fs w)
       (w_log w ++ [CClose])).
Proof.
  unfold Close, bind, this, call_Close, ret.
  destruct (db_Close _ _) as [d [e|]]; reflexivity.
Qed.

(** ** The statements of [Lock] *)

Lemma exec_text_plain (s : Sqlite) (op : string) :
  dollar_free op = true -> exec_text s op = op.
Proof. apply replace_dollar_free. Qed.

(** X6: on an unlocked driver [Lock] issues the locking-mode pragma
    first and [BEGIN EXCLUSIVE] only when the pragma was accepted; it
    returns nil exactly when both were accepted, and otherwise the
    error of the statement that was refused, with that statement's
    text. *)
Theorem Lock_statements (s : Sqlite) (w : World) :
  locked s = false ->
  Lock s w =
    match snd (db_Exec (db s) (w_db w) "PRAGMA locking_mode = EXCLUSIVE" [])
    with
    | Some e =>
        (Some (DatabaseError (EngineError e) "PRAGMA locking_mode = EXCLUSIVE"),
         set_locked true s,
         mkWorld
           (fst (db_Exec (db s) (w_db w) "PRAGMA locking_mode = EXCLUSIVE" []))
           (w_fs w)
           (w_log w ++ [CExec "PRAGMA locking_mode = EXCLUSIVE" []]))
    | None =>
        (option_map
           (fun e => DatabaseError (EngineError e) "BEGIN EXCLUSIVE")
           (snd (db_Exec (db s)
                   (fst (db_Exec (db s) (w_db w)
                           "PRAGMA locking_mode = EXCLUSIVE" []))
                   "BEGIN EXCLUSIVE" [])),
         set_locked true s,
         mkWorld
           (fst (db_Exec (db s)
                   (fst (db_Exec (db s) (w_db w)
                           "PRAGMA locking_mode = EXCLUSIVE" []))
                   "BEGIN EXCLUSIVE" []))
           (w_fs w)
           (w_log w
            ++ [CExec "PRAGMA locking_mode = EXCLUSIVE" [];
                CExec "BEGIN EXCLUSIVE" []]))
    end.
Proof.
  intros H. unfold Lock. rewrite bind_this, H, bind_assign, bind_exec.
  unfold exec_error at 1. rewrite exec_text_plain by reflexivity.
  cbn [db set_locked].
  destruct (snd (db_Exec (db s) (w_db w) _ [])) as [e|] eqn:Hp; cbn [option_map].
  - unfold ret, exec_world. rewrite exec_text_plain by reflexivity. reflexivity.
  - rewrite bind_exec. unfold exec_error, exec_world.
    rewrite !exec_text_plain by reflexivity. cbn [db set_locked w_db w_fs w_log].
    rewrite <- app_assoc.
    destruct (snd (db_Exec (db s) _ "BEGIN EXCLUSIVE" [])); reflexivity.
Qed.

(** X16: on a driver whose flag is set [Unlock] issues exactly one
    statement, [COMMIT], and returns nil when it was accepted and
    otherwise the engine's error with the text [COMMIT]; it writes no
    field. *)
Theorem Unlock_statements (s : Sqlite) (w : World) :
  locked s = true ->
  Unlock s w =
    (option_map (fun e => DatabaseError (EngineError e) "COMMIT")
       (snd (db_Exec (db s) (w_db w) "COMMIT" [])),
     s,
     mkWorld (fst (db_Exec (db s) (w_db w) "COMMIT" [])) (w_fs w)
       (w_log w ++ [CExec "COMMIT" []])).
Proof.
  intros H. unfold Unlock. rewrite bind_this, H. cbn [negb].
  rewrite bind_exec. unfold exec_error, exec_world.
  rewrite exec_text_plain by reflexivity.
  destruct (snd (db_Exec _ _ _ _)); reflexivity.
Qed.

End OpenFacts.

Section SavepointFacts.
Context {engine : Engine} {runtime : Runtime}.

(** X7: when the engine refuses the [SAVEPOINT] statement, the action
    does not run; [transactionally] returns the savepoint's error and
    still issues [ROLLBACK TO] for the savepoint that was not created. *)
Theorem transactionally_savepoint_refused (thunk : M (option error))
    (s : Sqlite) (w : World) (e : EngErr) :
  snd (db_Exec (db s) (w_db w) ("SAVEPOINT " +:+ txname_of s) []) = Some e ->
  transactionally thunk s w =
    (Some (DatabaseError (EngineError e) ("SAVEPOINT " +:+ txname_of s)),
     bump s,
     mkWorld
       (fst (db_Exec (db s)
               (fst (db_Exec (db s) (w_db w) ("SAVEPOINT " +:+ txname_of s) []))
               ("ROLLBACK TO " +:+ txname_of s) []))
       (w_fs w)
       (w_log w
        ++ [CExec ("SAVEPOINT " +:+ txname_of s) [];
            CExec ("ROLLBACK TO " +:+ txname_of s) []])).
Proof.
  intros H. rewrite transactionally_unfold. unfold exec_error.
  rewrite exec_text_savepoint by reflexivity. cbn [db bump].
  rewrite H. cbn [option_map].
  rewrite !exec_world_savepoint by reflexivity. cbn [w_db w_fs w_log db bump].
  now rewrite <- app_assoc.
Qed.

(** X8: whatever the action does, the last statement of
    [transactionally] is [RELEASE] of its savepoint when it returns nil
    and [ROLLBACK TO] its savepoint when it returns an error. *)
Theorem transactionally_last_statement (thunk : M (option error))
    (s : Sqlite) (w : World) :
  last (w_log (snd (transactionally thunk s w))) =
    Some (CExec
            ((match fst (fst (transactionally thunk s w)) with
              | None => "RELEASE "
              | Some _ => "ROLLBACK TO "
              end) +:+ txname_of s) []).
Proof.
  rewrite transactionally_unfold.
  destruct (exec_error _ _ _ _) as [e|].
  - cbn [fst snd]. rewrite exec_world_savepoint by reflexivity.
    cbn [w_log]. apply last_snoc.
  - destruct (thunk _ _) as [[[e|] s2] w2]; cbn [fst snd];
      rewrite exec_world_savepoint by reflexivity; cbn [w_log];
      apply last_snoc.
Qed.

(** ** [SetVersion], path by path *)

Lemma SetVersion_unfold (version : Z) (dirty : bool) (s : Sqlite) (w : World) :
  SetVersion version dirty s w =
    let sp := "SAVEPOINT " +:+ txname_of s in
    let rb := "ROLLBACK TO " +:+ txname_of s in
    let del := "DELETE FROM ${MIGRATIONS_TABLE}" in
    let w1 := exec_world (bump s) w sp [] in
    let w2 := exec_world (bump s) w1 del [] in
    let w3 :=
      exec_world (bump s) w2 insert_statement [VInt version; VBool dirty] in
    match exec_error (bump s) w sp [] with
    | Some e => (Some e, bump s, exec_world (bump s) w1 rb [])
    | None =>
        match exec_error (bump s) w1 del [] with
        | Some e => (Some e, bump s, exec_world (bump s) w2 rb [])
        | None =>
            if (version >=? 0)%Z then
              match exec_error (bump s) w2 insert_statement
                      [VInt version; VBool dirty] with
              | Some e => (Some e, bump s, exec_world (bump s) w3 rb [])
              | None =>
                  (None, bump s,
                   exec_world (bump s) w3 ("RELEASE " +:+ txname_of s) [])
              end
            else
              (None, bump s,
               exec_world (bump s) w2 ("RELEASE " +:+ txname_of s) [])
        end
    end.
Proof.
  unfold SetVersion. rewrite transactionally_unfold. cbv zeta.
  destruct (exec_error (bump s) w _ []) as [e|]; [reflexivity|].
  rewrite bind_exec.
  destruct (exec_error (bump s) _ "DELETE FROM ${MIGRATIONS_TABLE}" [])
    as [e|]; [reflexivity|].
  destruct (version >=? 0)%Z; [|reflexivity].
  rewrite exec_unfold.
  destruct (exec_error (bump s) _ insert_statement _) as [e|]; reflexivity.
Qed.

(** X9: whatever its outcome, [SetVersion] leaves the handle, the
    path, the table name and the lock flag as they were and advances the
    savepoint counter by one step. *)
Theorem SetVersion_struct (version : Z) (dirty : bool)
    (s : Sqlite) (w : World) :
  snd (fst (SetVersion version dirty s w)) =
    mkSqlite (db s) (dbPath s) (migrationsTable s) (locked s)
      (wrap64 (txid s + 1)).
Proof.
  rewrite SetVersion_unfold. cbv zeta.
  repeat match goal with
         | |- context [match ?x with _ => _ end] => destruct x
         end; reflexivity.
Qed.

(** X10: for a negative version the dirty flag is not written and the
    version itself plays no part: any two such calls do the same. *)
Theorem SetVersion_negative (v v' : Z) (d d' : bool) (s : Sqlite) (w : World) :
  v < 0 -> v' < 0 ->
  SetVersion v d s w = SetVersion v' d' s w.
Proof.
  intros Hv Hv'. rewrite !SetVersion_unfold. cbv zeta.
  assert (E : (v >=? 0)%Z = false) by lia.
  assert (E' : (v' >=? 0)%Z = false) by lia.
  rewrite E, E'. reflexivity.
Qed.

(** X11: when the savepoint was created and the engine refuses the
    [DELETE], no [INSERT] is attempted, whatever the version: the
    statements are the savepoint, the delete and the rollback, and the
    delete's error is returned with the delete's text. *)
Theorem SetVersion_delete_refused (version : Z) (dirty : bool)
    (s : Sqlite) (w : World) (d1 : DB) (e : EngErr) :
  db_Exec (db s) (w_db w) ("SAVEPOINT " +:+ txname_of s) [] = (d1, None) ->
  snd (db_Exec (db s) d1 (delete_text (migrationsTable s)) []) = Some e ->
  fst (fst (SetVersion version dirty s w))
  = Some (DatabaseError (EngineError e) (delete_text (migrationsTable s)))
  /\ w_log (snd (SetVersion version dirty s w)) =
       (w_log w
        ++ [CExec ("SAVEPOINT " +:+ txname_of s) [];
            CExec (delete_text (migrationsTable s)) [];
            CExec ("ROLLBACK TO " +:+ txname_of s) []])%list.
Proof.
  intros Hsp Hdel.
  assert (E1 : exec_error (bump s) w ("SAVEPOINT " +:+ txname_of s) [] = None).
  { unfold exec_error. rewrite exec_text_savepoint by reflexivity.
    cbn [db bump]. now rewrite Hsp. }
  assert (E2 : w_db (exec_world (bump s) w ("SAVEPOINT " +:+ txname_of s) [])
               = d1).
  { rewrite exec_world_db, exec_text_savepoint by reflexivity.
    cbn [db bump]. now rewrite Hsp. }
  assert (E3 : exec_error (bump s)
                 (exec_world (bump s) w ("SAVEPOINT " +:+ txname_of s) [])
                 "DELETE FROM ${MIGRATIONS_TABLE}" []
               = Some (DatabaseError (EngineError e)
                         (delete_text (migrationsTable s)))).
  { unfold exec_error. rewrite exec_text_delete, E2. cbn [db bump].
    now rewrite Hdel. }
  rewrite SetVersion_unfold. cbv zeta. rewrite E1, E3. cbn [fst snd].
  split; [reflexivity|].
  rewrite !exec_world_log, exec_text_delete,
    !exec_text_savepoint by reflexivity.
  now rewrite <- !app_assoc.
Qed.

End SavepointFacts.

Section VersionFacts.
Context {engine : Engine} {runtime : Runtime}.

(** X12: [Version] asks one query, with the table name between double
    quotes, and writes no field.  When it returns an error, the version
    is 0 and the dirty flag false, and the error is a [database.Error]
    that carries the query text and an original error other than
    [sql.ErrNoRows]. *)
Theorem Version_outcomes (s : Sqlite) (w : World) :
  snd (fst (Version s w)) = s
  /\ w_log (snd (Version s w)) =
       (w_log w ++ [CQueryRow (select_text (migrationsTable s)) []])%list
  /\ (forall v d e,
         fst (fst (Version s w)) = (v, d, Some e) ->
         v = 0 /\ d = false
         /\ exists orig,
              e = DatabaseError orig (select_text (migrationsTable s))
              /\ orig <> ErrNoRows).
Proof.
  unfold Version. rewrite bind_this.
  fold (select_text (migrationsTable s)). rewrite bind_call_QueryRow.
  destruct (snd (db_QueryRow _ _ _ _)) as [cols| |e0].
  - destruct cols as [|c0 [|c1 [|c2 cols]]]; try version_error.
    destruct (scan_int c0) as [v0|]; [|version_error].
    destruct (scan_bool c1) as [d0|]; [|version_error].
    cbn. split; [reflexivity|split; [reflexivity|discriminate]].
  - cbn. split; [reflexivity|split; [reflexivity|discriminate]].
  - version_error.
Qed.


Section Atomicity.
Variable rows : DB -> option (list (list Value)).
Variable saved : DB -> option (option (list (list Value))).

(** On an engine that obeys the bookkeeping laws, what [Version]
    returns depends on the content of the table only. *)
Lemma Version_same_rows (s1 s2 : Sqlite) (w1 w2 : World) (sp : string)
    (l : list (list Value)) :
  BookkeepingEngine (db s1) (migrationsTable s1) sp rows ->
  db s2 = db s1 -> migrationsTable s2 = migrationsTable s1 ->
  rows (w_db w1) = Some l -> rows (w_db w2) = Some l ->
  fst (fst (Version s1 w1)) = fst (fst (Version s2 w2)).
Proof.
  intros L Hdb Htbl H1 H2.
  pose proof (law_select _ _ _ _ L (w_db w1)) as Q1.
  pose proof (law_select _ _ _ _ L (w_db w2)) as Q2.
  rewrite H1 in Q1. rewrite H2 in Q2.
  unfold Version. rewrite !bind_this.
  fold (select_text (migrationsTable s1)) (select_text (migrationsTable s2)).
  rewrite !bind_call_QueryRow, Htbl, Hdb.
  destruct l as [|row l]; rewrite Q1, Q2; [reflexivity|].
  destruct row as [|c0 [|c1 [|c2 row]]]; try reflexivity.
  destruct (scan_int c0); [|reflexivity].
  destruct (scan_bool c1); reflexivity.
Qed.

(** X14: [SetVersion] is all or nothing.  On an engine whose savepoints
    obey the laws, a [SetVersion] that created its savepoint and then
    failed, at the delete or at the insert, leaves the table with the
    rows it had before the call, and [Version] returns afterwards what
    it returned before. *)
Theorem SetVersion_failure_restores_rows (version : Z) (dirty : bool)
    (s : Sqlite) (w : World) (l : list (list Value))
    (e : error) (s' : Sqlite) (w' : World) :
  BookkeepingEngine (db s) (migrationsTable s) (txname_of s) rows ->
  SavepointEngine (db s) (migrationsTable s) (txname_of s) rows saved ->
  snd (db_Exec (db s) (w_db w) ("SAVEPOINT " +:+ txname_of s) []) = None ->
  rows (w_db w) = Some l ->
  SetVersion version dirty s w = (Some e, s', w') ->
  rows (w_db w') = Some l
  /\ fst (fst (Version s' w')) = fst (fst (Version s w)).
Proof.
  intros LB LS Hsp Hl H.
  assert (Hrows : rows (w_db w') = Some l /\ s' = bump s).
  { revert H. rewrite SetVersion_unfold. cbv zeta.
    assert (E1 : exec_error (bump s) w ("SAVEPOINT " +:+ txname_of s) []
                 = None).
    { unfold exec_error. rewrite exec_text_savepoint by reflexivity.
      cbn [db bump]. now rewrite Hsp. }
    rewrite E1.
    assert (S1 : saved (w_db (exec_world (bump s) w
                                ("SAVEPOINT " +:+ txname_of s) []))
                 = Some (Some l)).
    { rewrite exec_world_db, exec_text_savepoint by reflexivity.
      cbn [db bump]. rewrite <- Hl.
      apply (law_sp_create _ _ _ _ _ LS).
      destruct (db_Exec _ _ _ _) as [d1 r]. cbn in Hsp. now subst r. }
    assert (S2 : saved (w_db (exec_world (bump s)
                                (exec_world (bump s) w
                                   ("SAVEPOINT " +:+ txname_of s) [])
                                "DELETE FROM ${MIGRATIONS_TABLE}" []))
                 = Some (Some l)).
    { rewrite exec_world_db, exec_text_delete. cbn [db bump].
      now rewrite (law_sp_delete _ _ _ _ _ LS). }
    assert (S3 : saved (w_db (exec_world (bump s)
                                (exec_world (bump s)
                                   (exec_world (bump s) w
                                      ("SAVEPOINT " +:+ txname_of s) [])
                                   "DELETE FROM ${MIGRATIONS_TABLE}" [])
                                insert_statement [VInt version; VBool dirty]))
                 = Some (Some l)).
    { rewrite exec_world_db, exec_text_insert. cbn [db bump].
      now rewrite (law_sp_insert _ _ _ _ _ LS). }
    destruct (exec_error (bump s) _ "DELETE FROM ${MIGRATIONS_TABLE}" [])
      as [e1|].
    - intros [= <- <- <-]. split; [|reflexivity].
      rewrite exec_world_db, exec_text_savepoint by reflexivity.
      cbn [db bump]. exact (law_sp_rollback _ _ _ _ _ LS _ _ S2).
    - destruct (version >=? 0)%Z; [|discriminate].
      destruct (exec_error (bump s) _ insert_statement _) as [e2|];
        [|discriminate].
      intros [= <- <- <-]. split; [|reflexivity].
      rewrite exec_world_db, exec_text_savepoint by reflexivity.
      cbn [db bump]. exact (law_sp_rollback _ _ _ _ _ LS _ _ S3). }
  destruct Hrows as [Hr ->]. split; [exact Hr|].
  symmetry.
  exact (Version_same_rows s (bump s) w w' _ l LB eq_refl eq_refl Hl Hr).
Qed.

End Atomicity.
End VersionFacts.

Section ConcreteExtra.
Import Toy.

Lemma toy_catalog_laws :
  CatalogEngine tt "schema_migrations" (present_of "schema_migrations").
Proof.
  split.
  - intros d. cbn [db_QueryRow engine]. unfold QueryRow, present_of.
    destruct (closed d); [split; discriminate|].
    change (classify_query (parse catalog_query)) with QCount.
    cbv beta iota.
    destruct (table "schema_migrations" (tables d)); split;
      (reflexivity || discriminate).
  - intros d. cbn [db_QueryRow engine]. unfold QueryRow.
    destruct (closed d); [reflexivity|].
    change (classify_query (parse catalog_query)) with QCount.
    cbv beta iota.
    destruct (table "schema_migrations" (tables d)); reflexivity.
  - intros d d'. cbn [db_Exec engine]. unfold Exec.
    destruct (closed d) eqn:Hc; [discriminate|].
    change (parse (create_text "schema_migrations"))
      with [["CREATE"; "TABLE"; "schema_migrations"; "("; "version"; "bigint";
             "not"; "null"; "primary"; "key"; ","; "dirty"; "boolean"; "not";
             "null"; ")"]].
    cbn [run]. unfold step.
    change (classify _) with (SCreate "schema_migrations").
    cbv beta iota.
    destruct (table "schema_migrations" (tables d)); [discriminate|].
    intros [= <-]. unfold present_of. cbn. rewrite Hc.
    now rewrite table_put_table.
Qed.

Lemma toy_savepoint_laws :
  SavepointEngine tt "schema_migrations" "txn_1"
    (rows_of "schema_migrations") (saved_of "schema_migrations" "txn_1").
Proof.
  split.
  - intros d d'. cbn [db_Exec engine]. unfold Exec.
    destruct (closed d) eqn:Hc; [discriminate|].
    change (parse ("SAVEPOINT " +:+ "txn_1")) with [["SAVEPOINT"; "txn_1"]].
    cbn [run]. unfold step.
    change (classify ["SAVEPOINT"; "txn_1"]) with (SSavepoint "txn_1").
    cbv beta iota. intros [= <-]. unfold saved_of, rows_of. cbn.
    now rewrite Hc.
  - intros d. cbn [db_Exec engine]. unfold Exec.
    destruct (closed d) eqn:Hc; [reflexivity|].
    change (parse (delete_text "schema_migrations"))
      with [["DELETE"; "FROM"; "schema_migrations"]].
    cbn [run]. unfold step.
    change (classify ["DELETE"; "FROM"; "schema_migrations"])
      with (SDelete "schema_migrations").
    cbv beta iota.
    destruct (table "schema_migrations" (tables d)); reflexivity.
  - intros d v b. cbn [db_Exec engine]. unfold Exec.
    destruct (closed d) eqn:Hc; [reflexivity|].
    change (parse (insert_text "schema_migrations"))
      with [["INSERT"; "INTO"; "schema_migrations"; "("; "version"; ",";
             "dirty"; ")"; "VALUES"; "("; "$1"; ","; "$2"; ")"]].
    cbn [run]. unfold step.
    change (classify _) with (SInsert "schema_migrations").
    cbv beta iota.
    destruct (table "schema_migrations" (tables d)) as [l0|]; [|reflexivity].
    destruct (existsb (same_key v) l0); reflexivity.
  - intros d x. unfold saved_of. cbn [db_Exec engine]. unfold Exec.
    destruct (closed d) eqn:Hc; [discriminate|].
    change (parse ("ROLLBACK TO " +:+ "txn_1"))
      with [["ROLLBACK"; "TO"; "txn_1"]].
    cbn [run]. unfold step.
    change (classify ["ROLLBACK"; "TO"; "txn_1"]) with (SRollbackTo "txn_1").
    cbv beta iota.
    destruct (from_savepoint "txn_1" (savepoints d)) as [[|[m t] outer]|];
      try discriminate.
    intros [= <-]. unfold rows_of. cbn. now rewrite Hc.
Qed.

End ConcreteExtra.

Section FaultyFacts.

Lemma Faulty_Exec_other (d : Toy.State * bool) (op : string)
    (arg : list Value) :
  Faulty.is_insert op = false ->
  Faulty.Exec tt d op arg =
    ((fst (Toy.Exec tt (fst d) op arg), snd d),
     option_map Faulty.Inner (snd (Toy.Exec tt (fst d) op arg))).
Proof.
  intros H. unfold Faulty.Exec. rewrite H. cbn.
  destruct (Toy.Exec tt (fst d) op arg); reflexivity.
Qed.

Lemma Faulty_Exec_insert (d : Toy.State * bool) (op : string)
    (arg : list Value) :
  Faulty.is_insert op = true ->
  Faulty.Exec tt d op arg =
    if snd d then ((fst d, false), Some Faulty.DiskFull)
    else ((fst (Toy.Exec tt (fst d) op arg), false),
          option_map Faulty.Inner (snd (Toy.Exec tt (fst d) op arg))).
Proof.
  intros H. unfold Faulty.Exec. rewrite H. destruct d as [d []]; cbn;
    [reflexivity|].
  destruct (Toy.Exec tt d op arg); reflexivity.
Qed.

Lemma faulty_bookkeeping_laws :
  @BookkeepingEngine Faulty.engine tt "schema_migrations" "txn_1"
    (fun d => Toy.rows_of "schema_migrations" (fst d)).
Proof.
  destruct toy_laws as [Tsp Trel Tdel Tins Tsel].
  split; cbn [db_Exec db_QueryRow Faulty.engine].
  - intros d. rewrite Faulty_Exec_other by reflexivity. apply Tsp.
  - intros d. rewrite Faulty_Exec_other by reflexivity. apply Trel.
  - intros d d'. rewrite Faulty_Exec_other by reflexivity.
    destruct (Toy.Exec tt (fst d) _ []) as [t [e|]] eqn:He; [discriminate|].
    intros [= <-]. exact (Tdel _ _ He).
  - intros d d' v b l. rewrite Faulty_Exec_insert by reflexivity.
    destruct (snd d); [discriminate|].
    destruct (Toy.Exec tt (fst d) _ _) as [t [e|]] eqn:He; [discriminate|].
    intros [= <-]. exact (Tins _ _ _ _ _ He).
  - intros d. specialize (Tsel (fst d)). unfold Faulty.QueryRow.
    cbn [db_QueryRow Toy.engine] in Tsel.
    destruct (Toy.QueryRow tt (fst d) _ []) as [t r]. cbn in Tsel |- *.
    destruct (Toy.rows_of "schema_migrations" (fst d)) as [[|row l]|];
      [now subst r|now subst r|exact I].
Qed.

Lemma faulty_savepoint_laws :
  @SavepointEngine Faulty.engine tt "schema_migrations" "txn_1"
    (fun d => Toy.rows_of "schema_migrations" (fst d))
    (fun d => Toy.saved_of "schema_migrations" "txn_1" (fst d)).
Proof.
  destruct toy_savepoint_laws as [Tc Td Ti Tr].
  split; cbn [db_Exec Faulty.engine].
  - intros d d'. rewrite Faulty_Exec_other by reflexivity.
    destruct (Toy.Exec tt (fst d) _ []) as [t [e|]] eqn:He; [discriminate|].
    intros [= <-]. exact (Tc _ _ He).
  - intros d. rewrite Faulty_Exec_other by reflexivity. apply Td.
  - intros d v b. rewrite Faulty_Exec_insert by reflexivity.
    destruct (snd d); [reflexivity|]. apply Ti.
  - intros d x. rewrite Faulty_Exec_other by reflexivity. apply Tr.
Qed.

End FaultyFacts.

Section ExtraWitnesses.
Import Toy.

(** X1 at the locator [/tmp/m.db], which carries no option. *)
Lemma Open_success_fields_witness :
  url_Parse "/tmp/m.db" = inl (mkURL "/tmp/m.db" ∅)
  /\ Open "/tmp/m.db" fresh_world = (inl drv, world0)
  /\ snd (sql_Open (w_db fresh_world) "/tmp/m.db") = inl (db drv)
  /\ dbPath drv = "/tmp/m.db"
  /\ migrationsTable drv = "schema_migrations"
  /\ locked drv = false
  /\ txid drv = 0.
Proof.
  split; [reflexivity|]. split; [exact Open_fresh|].
  exact (Open_success_fields "/tmp/m.db" (mkURL "/tmp/m.db" ∅) fresh_world
           drv world0 eq_refl Open_fresh).
Defined.

(** X3 at the empty database: the first call creates the table, the
    second only asks the catalog. *)
Lemma ensureVersionTable_idempotent_witness :
  CatalogEngine (db drv) (migrationsTable drv) (present_of "schema_migrations")
  /\ ensureVersionTable drv fresh_world
     = (None, drv, snd (ensureVersionTable drv fresh_world))
  /\ w_log (snd (ensureVersionTable drv fresh_world))
     = [CQueryRow catalog_query [VText "schema_migrations"];
        CExec (create_text "schema_migrations") []]
  /\ fst (fst (ensureVersionTable drv
                 (snd (ensureVersionTable drv fresh_world)))) = None
  /\ w_log (snd (ensureVersionTable drv
                   (snd (ensureVersionTable drv fresh_world))))
     = [CQueryRow catalog_query [VText "schema_migrations"];
        CExec (create_text "schema_migrations") [];
        CQueryRow catalog_query [VText "schema_migrations"]].
Proof.
  split; [exact toy_catalog_laws|].
  split; [vm_compute; reflexivity|].
  split; [vm_compute; reflexivity|].
  rewrite (@ensureVersionTable_idempotent engine runtime
             (present_of "schema_migrations") drv fresh_world drv
             (snd (ensureVersionTable drv fresh_world))
             toy_catalog_laws ltac:(vm_compute; reflexivity)).
  split; [reflexivity|]. vm_compute. reflexivity.
Defined.

(** X4 at the empty database. *)
Lemma Open_bootstraps_witness :
  CatalogEngine (db drv) (migrationsTable drv) (present_of "schema_migrations")
  /\ Open "/tmp/m.db" fresh_world = (inl drv, world0)
  /\ present_of "schema_migrations" (w_db world0) = true.
Proof.
  split; [exact toy_catalog_laws|]. split; [exact Open_fresh|].
  exact (@Open_bootstraps engine runtime (present_of "schema_migrations")
           "/tmp/m.db" fresh_world drv world0 toy_catalog_laws Open_fresh).
Defined.

(** X6 at the freshly opened driver: both statements are accepted. *)
Lemma Lock_statements_witness :
  locked drv = false
  /\ fst (fst (Lock drv world0)) = None
  /\ w_log (snd (Lock drv world0))
     = (w_log world0
        ++ [CExec "PRAGMA locking_mode = EXCLUSIVE" [];
            CExec "BEGIN EXCLUSIVE" []])%list.
Proof.
  split; [reflexivity|].
  rewrite (Lock_statements drv world0 eq_refl).
  vm_compute. split; reflexivity.
Defined.

(** X7 on a closed connection: the savepoint is refused. *)
Lemma transactionally_savepoint_refused_witness :
  snd (db_Exec (db drv) (w_db closed_world) ("SAVEPOINT " +:+ txname_of drv) [])
  = Some DatabaseIsClosed
  /\ fst (fst (transactionally release_only drv closed_world))
     = Some (DatabaseError (EngineError DatabaseIsClosed) "SAVEPOINT txn_1")
  /\ w_log (snd (transactionally release_only drv closed_world))
     = (w_log closed_world
        ++ [CExec "SAVEPOINT txn_1" []; CExec "ROLLBACK TO txn_1" []])%list.
Proof.
  split; [reflexivity|].
  rewrite (transactionally_savepoint_refused release_only drv closed_world
             DatabaseIsClosed eq_refl).
  vm_compute. split; reflexivity.
Defined.

(** X10 at versions -1 and -7. *)
Lemma SetVersion_negative_witness :
  -1 < 0 /\ -7 < 0
  /\ SetVersion (-1) true drv world0 = SetVersion (-7) false drv world0.
Proof.
  split; [lia|]. split; [lia|].
  exact (SetVersion_negative (-1) (-7) true false drv world0
           ltac:(lia) ltac:(lia)).
Defined.

(** X11 on a database without the bookkeeping table. *)
Lemma SetVersion_delete_refused_witness :
  db_Exec (db drv) (w_db fresh_world) ("SAVEPOINT " +:+ txname_of drv) []
  = (mkState [] [("txn_1", [])] false false false, None)
  /\ snd (db_Exec (db drv) (mkState [] [("txn_1", [])] false false false)
            (delete_text (migrationsTable drv)) [])
     = Some (NoSuchTable "schema_migrations")
  /\ fst (fst (SetVersion 3 true drv fresh_world))
     = Some (DatabaseError (EngineError (NoSuchTable "schema_migrations"))
               "DELETE FROM schema_migrations")
  /\ w_log (snd (SetVersion 3 true drv fresh_world))
     = [CExec "SAVEPOINT txn_1" []; CExec "DELETE FROM schema_migrations" [];
        CExec "ROLLBACK TO txn_1" []].
Proof.
  split; [vm_compute; reflexivity|]. split; [vm_compute; reflexivity|].
  exact (SetVersion_delete_refused 3 true drv fresh_world
           (mkState [] [("txn_1", [])] false false false)
           (NoSuchTable "schema_migrations")
           ltac:(vm_compute; reflexivity) ltac:(vm_compute; reflexivity)).
Defined.

(** X16 on the driver after [Lock]: the transaction is committed. *)
Lemma Unlock_statements_witness :
  locked (set_locked true drv) = true
  /\ fst (fst (Unlock (set_locked true drv) (snd (Lock drv world0)))) = None
  /\ w_log (snd (Unlock (set_locked true drv) (snd (Lock drv world0))))
     = (w_log world0
        ++ [CExec "PRAGMA locking_mode = EXCLUSIVE" [];
            CExec "BEGIN EXCLUSIVE" []; CExec "COMMIT" []])%list.
Proof.
  split; [reflexivity|].
  rewrite (Unlock_statements (set_locked true drv) (snd (Lock drv world0))
             eq_refl).
  vm_compute. split; reflexivity.
Defined.

End ExtraWitnesses.

Section FaultyWitness.
#[local] Existing Instance Toy.runtime.
#[local] Existing Instance Faulty.engine.

(** X14 with the insert refused: the table held (5, false), the delete
    went through, the insert failed, and (5, false) is what the table
    holds and what [Version] returns afterwards. *)
Lemma SetVersion_failure_restores_rows_witness :
  @BookkeepingEngine Faulty.engine (db Faulty.drv)
    (migrationsTable Faulty.drv) (txname_of Faulty.drv)
    (fun d => Toy.rows_of "schema_migrations" (fst d))
  /\ @SavepointEngine Faulty.engine (db Faulty.drv)
       (migrationsTable Faulty.drv) (txname_of Faulty.drv)
       (fun d => Toy.rows_of "schema_migrations" (fst d))
       (fun d => Toy.saved_of "schema_migrations" "txn_1" (fst d))
  /\ fst (fst (SetVersion 7 true Faulty.drv Faulty.faulty_world))
     = Some (DatabaseError (EngineError Faulty.DiskFull)
               (insert_text "schema_migrations"))
  /\ Toy.rows_of "schema_migrations"
       (fst (w_db (snd (SetVersion 7 true Faulty.drv Faulty.faulty_world))))
     = Some [[VInt 5; VBool false]]
  /\ fst (fst (Version (bump Faulty.drv)
                 (snd (SetVersion 7 true Faulty.drv Faulty.faulty_world))))
     = (5, false, None).
Proof.
  split; [exact faulty_bookkeeping_laws|].
  split; [exact faulty_savepoint_laws|].
  split; [vm_compute; reflexivity|].
  destruct (@SetVersion_failure_restores_rows Faulty.engine Toy.runtime
              (fun d => Toy.rows_of "schema_migrations" (fst d))
              (fun d => Toy.saved_of "schema_migrations" "txn_1" (fst d))
              7 true Faulty.drv Faulty.faulty_world
              [[VInt 5; VBool false]]
              (@DatabaseError Faulty.engine Toy.runtime
                 (@EngineError Faulty.engine Toy.runtime Faulty.DiskFull)
                 (insert_text "schema_migrations"))
              (bump Faulty.drv)
              (snd (SetVersion 7 true Faulty.drv Faulty.faulty_world))
              faulty_bookkeeping_laws faulty_savepoint_laws
              ltac:(vm_compute; reflexivity) ltac:(vm_compute; reflexivity)
              ltac:(vm_compute; reflexivity)) as [Hrows Hver].
  split; [exact Hrows|]. rewrite Hver. vm_compute. reflexivity.
Defined.

End FaultyWitness.
